(** * chatgpt-go: a shallow embedding of [chatgpt.go]

    The client of [chatgpt.go] is embedded as executable Rocq functions:
    Go strings and byte slices are [string] (a sequence of 8-bit
    characters), [time.Time] and [time.Duration] are [Z] (nanoseconds),
    the value-and-error pairs of Go are pairs with an [option error], and
    everything outside the file (clock, identifier generator, network) is
    an explicit [World] threaded through the calls.  The unbounded [for]
    loop of [SendMessage] is iterated with fuel, [None] meaning that the
    loop has not left within the given number of rounds. *)

From Stdlib Require Import String Ascii List ZArith Lia Bool Arith.
Import ListNotations.

Set Warnings "-register-all".

Open Scope string_scope.

(** ** The parts of the Go library the client calls *)

Module Go.

(** The byte ['\n']. *)
Definition LF : ascii := "010"%char.

(** The one-byte string holding ['\n']. *)
Definition newline : string := String LF EmptyString.

(** Errors.  [io_EOF] is the sentinel [io.EOF]; [Opaque] stands for an
    error made by the transport or by a reader; [JSONError] for an error
    of [json.Unmarshal]; [Errorf] keeps the format and the arguments of
    a [fmt.Errorf] call, [ArgW] being an error wrapped with [%w]. *)
Inductive error : Type :=
| io_EOF
| Opaque (msg : string)
| JSONError (msg : string)
| Errorf (format : string) (args : list fmtarg)
with fmtarg : Type :=
| ArgS (s : string)
| ArgD (n : Z)
| ArgW (e : error).

(** [err == io.EOF]. *)
Definition is_EOF (e : error) : bool :=
  match e with
  | io_EOF => true
  | _ => false
  end.

(** What a call leaves behind: it returns, or it panics. *)
Inductive outcome (A : Type) : Type :=
| Returns (a : A)
| Panics (msg : string).
Arguments Returns {A} a.
Arguments Panics {A} msg.

(** [bytes.HasPrefix], giving what follows the prefix. *)
Fixpoint CutPrefix (s prefix : string) {struct prefix} : option string :=
  match prefix, s with
  | EmptyString, _ => Some s
  | String p prefix', String a s' =>
      if Ascii.eqb a p then CutPrefix s' prefix' else None
  | String _ _, EmptyString => None
  end.

(** [bytes.Cut]: the text before and after the first [sep] in [s]. *)
Fixpoint Cut (s sep : string) : option (string * string) :=
  match CutPrefix s sep with
  | Some after => Some (EmptyString, after)
  | None =>
      match s with
      | EmptyString => None
      | String a s' =>
          match Cut s' sep with
          | Some (before, after) => Some (String a before, after)
          | None => None
          end
      end
  end.

(** [bytes.SplitN(s, sep, n)] for a non-empty [sep] and [n >= 0]: at
    most [n] pieces, the last one the unsplit rest. *)
Fixpoint SplitN (s sep : string) (n : nat) : list string :=
  match n with
  | 0 => []
  | S n' =>
      match n' with
      | 0 => [s]
      | S _ =>
          match Cut s sep with
          | Some (before, after) => before :: SplitN after sep n'
          | None => [s]
          end
      end
  end.

(** [strings.TrimSuffix]. *)
Fixpoint TrimSuffix (s suffix : string) : string :=
  match s with
  | EmptyString => EmptyString
  | String a s' =>
      if String.eqb s suffix then EmptyString
      else String a (TrimSuffix s' suffix)
  end.

(** The text up to and including the first [delim], and what follows. *)
Fixpoint cutAfter (delim : ascii) (s : string) : option (string * string) :=
  match s with
  | EmptyString => None
  | String a s' =>
      if Ascii.eqb a delim then Some (String a EmptyString, s')
      else
        match cutAfter delim s' with
        | Some (line, rest) => Some (String a line, rest)
        | None => None
        end
  end.

(** A response body behind a [bufio.Reader]: the bytes still to come,
    and the error the stream reports once they are used up ([io.EOF]
    for a stream that ends well). *)
Record Reader : Type := mkReader {
  pending : string;
  ending : error
}.

(** [br.ReadBytes(delim)]: the data up to and including the delimiter;
    when the stream ends first, the data read so far and the error.
    A later read finds no data and the same error. *)
Definition ReadBytes (br : Reader) (delim : ascii)
  : (string * option error) * Reader :=
  match cutAfter delim (pending br) with
  | Some (line, rest) => ((line, None), mkReader rest (ending br))
  | None =>
      ((pending br, Some (ending br)), mkReader EmptyString (ending br))
  end.

(** [io.ReadAll]: all the data; [io.EOF] is not reported as an error. *)
Definition ReadAll (r : Reader) : string * option error :=
  (pending r, if is_EOF (ending r) then None else Some (ending r)).

End Go.

Import Go.

(** ** The line-reading loop of [SendMessage] (lines 259-284) *)

Definition delim : string := ": ".

(** What one round of the loop does next. *)
Inductive control : Type :=
| Continue (respMessage : string)
| Break (respMessage : string)
| Return (err : error).

(** [err != nil && err != io.EOF] *)
Definition failed (err : option error) : option error :=
  match err with
  | Some e => if is_EOF e then None else Some e
  | None => None
  end.

(** [err == io.EOF] *)
Definition at_EOF (err : option error) : bool :=
  match err with
  | Some e => is_EOF e
  | None => false
  end.

(** The loop body after [ReadBytes] gave [bs] and [err]. *)
Definition loop_body (bs : string) (err : option error)
    (respMessage : string) : control :=
  match failed err with
  | Some e => Return e
  | None =>
      if (String.length bs <? 2)%nat then Continue respMessage
      else
        let spl := SplitN bs delim 2 in
        if (List.length spl <? 2)%nat then Continue respMessage
        else
          let value := TrimSuffix (nth 1 spl EmptyString) newline in
          if at_EOF err || String.eqb value "[DONE]" then Break respMessage
          else Continue value
  end.

(** The loop: [Some (inr respMessage)] when it leaves by [break],
    [Some (inl err)] when the function returns from inside it, [None]
    when it is still running after [fuel] rounds. *)
Fixpoint read_loop (fuel : nat) (br : Reader) (respMessage : string)
  : option (error + string) :=
  match fuel with
  | 0 => None
  | S fuel' =>
      let '((bs, err), br') := ReadBytes br LF in
      match loop_body bs err respMessage with
      | Continue respMessage' => read_loop fuel' br' respMessage'
      | Break respMessage' => Some (inr respMessage')
      | Return e => Some (inl e)
      end
  end.


(** ** [encoding/json], as far as the client uses it

    A JSON text is checked and read into a [value] first, as
    [json.Unmarshal] checks the whole input before it stores anything;
    the structs are then filled from the [value]. *)

Module JSON.

Inductive value : Type :=
| Null
| Bool (b : bool)
| Number (literal : string)
| Str (s : string)
| Array (elements : list value)
| Object (members : list (string * value)).

Definition DQ : ascii := "034"%char.
Definition BS : ascii := "\"%char.

Definition is_space (c : ascii) : bool :=
  Ascii.eqb c " " || Ascii.eqb c "009" || Ascii.eqb c "010"
  || Ascii.eqb c "013".

Fixpoint skip_space (s : string) : string :=
  match s with
  | String c s' => if is_space c then skip_space s' else s
  | EmptyString => s
  end.

Definition is_digit (c : ascii) : bool :=
  let n := N_of_ascii c in ((48 <=? n) && (n <=? 57))%N.

Definition hex_digit (c : ascii) : option N :=
  let n := N_of_ascii c in
  if ((48 <=? n) && (n <=? 57))%N then Some (n - 48)%N
  else if ((97 <=? n) && (n <=? 102))%N then Some (n - 87)%N
  else if ((65 <=? n) && (n <=? 70))%N then Some (n - 55)%N
  else None.

(** Four hexadecimal digits, as after [\u]. *)
Definition hex4 (s : string) : option (N * string) :=
  match s with
  | String a (String b (String c (String d rest))) =>
      match hex_digit a, hex_digit b, hex_digit c, hex_digit d with
      | Some x, Some y, Some z, Some w =>
          Some ((x * 4096 + y * 256 + z * 16 + w)%N, rest)
      | _, _, _, _ => None
      end
  | _ => None
  end.

(** The UTF-8 bytes of a code point. *)
Definition utf8 (n : N) : string :=
  let b (k : N) := String (ascii_of_N k) EmptyString in
  (if n <? 128 then b n
   else if n <? 2048 then b (192 + n / 64) ++ b (128 + n mod 64)
   else if n <? 65536 then
     b (224 + n / 4096) ++ b (128 + (n / 64) mod 64) ++ b (128 + n mod 64)
   else
     b (240 + n / 262144) ++ b (128 + (n / 4096) mod 64)
     ++ b (128 + (n / 64) mod 64) ++ b (128 + n mod 64))%N.

Definition replacement : N := 65533.

(** A [\u] escape whose digits gave [n]: a high surrogate followed by
    an escaped low surrogate makes one code point, any other surrogate
    is replaced by U+FFFD. *)
Definition unescape_u (n : N) (rest : string) : string * string :=
  if ((55296 <=? n) && (n <? 56320))%N then
    match rest with
    | String c1 (String c2 rest') =>
        if Ascii.eqb c1 BS && Ascii.eqb c2 "u" then
          match hex4 rest' with
          | Some (m, rest'') =>
              if ((56320 <=? m) && (m <? 57344))%N then
                (utf8 ((n - 55296) * 1024 + (m - 56320) + 65536)%N, rest'')
              else (utf8 replacement, rest)
          | None => (utf8 replacement, rest)
          end
        else (utf8 replacement, rest)
    | _ => (utf8 replacement, rest)
    end
  else if ((56320 <=? n) && (n <? 57344))%N then (utf8 replacement, rest)
  else (utf8 n, rest).

Definition byte_at (i : nat) (s : string) : N :=
  match String.get i s with
  | Some c => N_of_ascii c
  | None => 0
  end.

Definition between (lo n hi : N) : bool := ((lo <=? n) && (n <=? hi))%N.

(** The number of bytes of the well-formed UTF-8 sequence that [s]
    starts with, for a first byte of 128 or more; 0 when there is none. *)
Definition rune_len (s : string) : nat :=
  let b0 := byte_at 0 s in
  let b1 := byte_at 1 s in
  let c2 := between 128 (byte_at 2 s) 191 in
  let c3 := between 128 (byte_at 3 s) 191 in
  if between 194 b0 223 then if between 128 b1 191 then 2 else 0
  else if (b0 =? 224)%N then if between 160 b1 191 && c2 then 3 else 0
  else if between 225 b0 236 || between 238 b0 239 then
    if between 128 b1 191 && c2 then 3 else 0
  else if (b0 =? 237)%N then if between 128 b1 159 && c2 then 3 else 0
  else if (b0 =? 240)%N then
    if between 144 b1 191 && c2 && c3 then 4 else 0
  else if between 241 b0 243 then
    if between 128 b1 191 && c2 && c3 then 4 else 0
  else if (b0 =? 244)%N then
    if between 128 b1 143 && c2 && c3 then 4 else 0
  else 0.

(** A string literal after its opening quote: its contents and what
    follows the closing quote.  Bytes that are not well-formed UTF-8
    are replaced by U+FFFD. *)
Fixpoint string_body (fuel : nat) (s : string) : option (string * string) :=
  match fuel with
  | 0 => None
  | S fuel' =>
      match s with
      | EmptyString => None
      | String c s' =>
          if Ascii.eqb c DQ then Some (EmptyString, s')
          else if Ascii.eqb c BS then
            match s' with
            | EmptyString => None
            | String e s'' =>
                let simple (x : ascii) :=
                  match string_body fuel' s'' with
                  | Some (body, rest) => Some (String x body, rest)
                  | None => None
                  end in
                if Ascii.eqb e DQ then simple DQ
                else if Ascii.eqb e BS then simple BS
                else if Ascii.eqb e "/" then simple "/"%char
                else if Ascii.eqb e "b" then simple "008"%char
                else if Ascii.eqb e "f" then simple "012"%char
                else if Ascii.eqb e "n" then simple "010"%char
                else if Ascii.eqb e "r" then simple "013"%char
                else if Ascii.eqb e "t" then simple "009"%char
                else if Ascii.eqb e "u" then
                  match hex4 s'' with
                  | Some (n, after) =>
                      let '(bytes, after') := unescape_u n after in
                      match string_body fuel' after' with
                      | Some (body, rest) => Some (bytes ++ body, rest)
                      | None => None
                      end
                  | None => None
                  end
                else None
            end
          else if (N_of_ascii c <? 32)%N then None
          else if (N_of_ascii c <? 128)%N then
            match string_body fuel' s' with
            | Some (body, rest) => Some (String c body, rest)
            | None => None
            end
          else
            match rune_len s with
            | 0 =>
                match string_body fuel' s' with
                | Some (body, rest) => Some (utf8 replacement ++ body, rest)
                | None => None
                end
            | S k =>
                match string_body fuel' (substring k (String.length s') s') with
                | Some (body, rest) =>
                    Some (String c (substring 0 k s') ++ body, rest)
                | None => None
                end
            end
      end
  end.

Fixpoint digits (s : string) : string * string :=
  match s with
  | String c s' =>
      if is_digit c then let '(d, rest) := digits s' in (String c d, rest)
      else (EmptyString, s)
  | EmptyString => (EmptyString, s)
  end.

(** A number literal: an optional minus sign; a zero, or a non-zero
    digit and more digits; optionally a point and digits; optionally
    an exponent mark, a sign and digits. *)
Definition number (s : string) : option (string * string) :=
  let '(sign, s1) :=
    match s with
    | String c s' => if Ascii.eqb c "-" then ("-", s') else (EmptyString, s)
    | EmptyString => (EmptyString, s)
    end in
  let int :=
    match s1 with
    | String c s' =>
        if Ascii.eqb c "0" then Some ("0", s')
        else if is_digit c then
          let '(d, rest) := digits s' in Some (String c d, rest)
        else None
    | EmptyString => None
    end in
  match int with
  | None => None
  | Some (i, s2) =>
      let frac :=
        match s2 with
        | String c s' =>
            if Ascii.eqb c "." then
              match digits s' with
              | (EmptyString, _) => None
              | (d, rest) => Some ("." ++ d, rest)
              end
            else Some (EmptyString, s2)
        | EmptyString => Some (EmptyString, s2)
        end in
      match frac with
      | None => None
      | Some (f, s3) =>
          let expo :=
            match s3 with
            | String c s' =>
                if Ascii.eqb c "e" || Ascii.eqb c "E" then
                  let '(sg, s'') :=
                    match s' with
                    | String g t =>
                        if Ascii.eqb g "+" || Ascii.eqb g "-"
                        then (String g EmptyString, t)
                        else (EmptyString, s')
                    | EmptyString => (EmptyString, s')
                    end in
                  match digits s'' with
                  | (EmptyString, _) => None
                  | (d, rest) => Some (String c sg ++ d, rest)
                  end
                else Some (EmptyString, s3)
            | EmptyString => Some (EmptyString, s3)
            end in
          match expo with
          | None => None
          | Some (e, s4) => Some (sign ++ i ++ f ++ e, s4)
          end
      end
  end.

(** One value, with leading space; then the elements of an array after
    its first byte, and the members of an object. *)
Fixpoint parse_value (fuel : nat) (s : string) : option (value * string) :=
  match fuel with
  | 0 => None
  | S fuel' =>
      match skip_space s with
      | EmptyString => None
      | String c s' =>
          if Ascii.eqb c "{" then
            match skip_space s' with
            | String c' s'' =>
                if Ascii.eqb c' "}" then Some (Object [], s'')
                else
                  match parse_members fuel' (String c' s'') with
                  | Some (ms, rest) => Some (Object ms, rest)
                  | None => None
                  end
            | EmptyString => None
            end
          else if Ascii.eqb c "[" then
            match skip_space s' with
            | String c' s'' =>
                if Ascii.eqb c' "]" then Some (Array [], s'')
                else
                  match parse_elements fuel' (String c' s'') with
                  | Some (vs, rest) => Some (Array vs, rest)
                  | None => None
                  end
            | EmptyString => None
            end
          else if Ascii.eqb c DQ then
            match string_body (String.length s') s' with
            | Some (body, rest) => Some (Str body, rest)
            | None => None
            end
          else if Ascii.eqb c "t" then
            match CutPrefix s' "rue" with
            | Some rest => Some (Bool true, rest)
            | None => None
            end
          else if Ascii.eqb c "f" then
            match CutPrefix s' "alse" with
            | Some rest => Some (Bool false, rest)
            | None => None
            end
          else if Ascii.eqb c "n" then
            match CutPrefix s' "ull" with
            | Some rest => Some (Null, rest)
            | None => None
            end
          else
            match number (String c s') with
            | Some (lit, rest) => Some (Number lit, rest)
            | None => None
            end
      end
  end
with parse_elements (fuel : nat) (s : string)
  : option (list value * string) :=
  match fuel with
  | 0 => None
  | S fuel' =>
      match parse_value fuel' s with
      | Some (v, rest) =>
          match skip_space rest with
          | String c rest' =>
              if Ascii.eqb c "," then
                match parse_elements fuel' rest' with
                | Some (vs, rest'') => Some (v :: vs, rest'')
                | None => None
                end
              else if Ascii.eqb c "]" then Some ([v], rest')
              else None
          | EmptyString => None
          end
      | None => None
      end
  end
with parse_members (fuel : nat) (s : string)
  : option (list (string * value) * string) :=
  match fuel with
  | 0 => None
  | S fuel' =>
      match skip_space s with
      | String c s' =>
          if Ascii.eqb c DQ then
            match string_body (String.length s') s' with
            | Some (key, rest) =>
                match skip_space rest with
                | String c' rest' =>
                    if Ascii.eqb c' ":" then
                      match parse_value fuel' rest' with
                      | Some (v, rest'') =>
                          match skip_space rest'' with
                          | String c'' rest''' =>
                              if Ascii.eqb c'' "," then
                                match parse_members fuel' rest''' with
                                | Some (ms, r) => Some ((key, v) :: ms, r)
                                | None => None
                                end
                              else if Ascii.eqb c'' "}"
                              then Some ([(key, v)], rest''')
                              else None
                          | EmptyString => None
                          end
                      | None => None
                      end
                    else None
                | EmptyString => None
                end
            | None => None
            end
          else None
      | EmptyString => None
      end
  end.

(** A whole JSON text: one value, then nothing but space. *)
Definition parse (s : string) : option value :=
  match parse_value (2 * String.length s + 2) s with
  | Some (v, rest) =>
      match skip_space rest with
      | EmptyString => Some v
      | String _ _ => None
      end
  | None => None
  end.

(** *** Writing *)

Definition hex (n : N) : ascii :=
  match String.get (N.to_nat n) "0123456789abcdef" with
  | Some c => c
  | None => "0"%char
  end.

(** The inside of a string literal as [json.Marshal] writes it: quote
    and backslash escaped, a backspace, form feed, line feed, carriage
    return and tab in their short form, the other control bytes and
    the bytes of HTML markup as [\u00XX], U+2028 and U+2029 escaped, a
    byte that is not well-formed UTF-8 replaced by the three bytes of
    U+FFFD.  (Toolchains before Go 1.22 wrote a backspace and a form
    feed as [\u0008] and [\u000c], and the replacement as the escape
    [\ufffd].)  [copy] counts the bytes of a sequence still to pass
    through, [drop] those already written as an escape. *)
Fixpoint escape (s : string) (copy drop : nat) : string :=
  match s with
  | EmptyString => EmptyString
  | String c s' =>
      match drop with
      | S d => escape s' copy d
      | 0 =>
          match copy with
          | S k => String c (escape s' k 0)
          | 0 =>
              let n := N_of_ascii c in
              if (n <? 128)%N then
                (if Ascii.eqb c DQ || Ascii.eqb c BS
                 then String BS (String c EmptyString)
                 else if Ascii.eqb c "008" then String BS "b"
                 else if Ascii.eqb c "012" then String BS "f"
                 else if Ascii.eqb c "010" then String BS "n"
                 else if Ascii.eqb c "013" then String BS "r"
                 else if Ascii.eqb c "009" then String BS "t"
                 else if (n <? 32)%N || Ascii.eqb c "<" || Ascii.eqb c ">"
                         || Ascii.eqb c "&"
                 then String BS "u00"
                      ++ String (hex (n / 16)) (String (hex (n mod 16)) EmptyString)
                 else String c EmptyString)
                ++ escape s' 0 0
              else
                match rune_len s with
                | 0 => utf8 replacement ++ escape s' 0 0
                | S k =>
                    if (n =? 226)%N && (byte_at 0 s' =? 128)%N
                       && between 168 (byte_at 1 s') 169
                    then String BS "u202"
                         ++ String (hex (byte_at 1 s' mod 16)) EmptyString
                         ++ escape s' 0 2
                    else String c (escape s' k 0)
                end
          end
      end
  end.

Definition quote (s : string) : string :=
  String DQ (escape s 0 0) ++ String DQ EmptyString.

(** The compact text of a value. *)
Fixpoint render (v : value) : string :=
  match v with
  | Null => "null"
  | Bool true => "true"
  | Bool false => "false"
  | Number literal => literal
  | Str s => quote s
  | Array elements =>
      "["
      ++ (fix items (l : list value) : string :=
            match l with
            | [] => EmptyString
            | x :: [] => render x
            | x :: r => render x ++ "," ++ items r
            end) elements
      ++ "]"
  | Object members =>
      "{"
      ++ (fix items (l : list (string * value)) : string :=
            match l with
            | [] => EmptyString
            | (k, x) :: [] => quote k ++ ":" ++ render x
            | (k, x) :: r => quote k ++ ":" ++ render x ++ "," ++ items r
            end) members
      ++ "}"
  end.

(** *** Struct encoding: the fields in order, a field tagged
    [omitempty] left out when its value is empty. *)

Record field : Type := mkField {
  key : string;
  omitempty : bool;
  content : value
}.

(** [isEmptyValue], on the encoded value: false, a zero number, an
    empty string, array or map, and nil. *)
Definition isEmptyValue (v : value) : bool :=
  match v with
  | Null => true
  | Bool b => negb b
  | Number literal => String.eqb literal "0"
  | Str s => String.eqb s EmptyString
  | Array elements => match elements with [] => true | _ => false end
  | Object _ => false
  end.

Definition kept (f : field) : bool :=
  negb (omitempty f && isEmptyValue (content f)).

Definition encode_struct (fields : list field) : value :=
  Object (map (fun f => (key f, content f)) (filter kept fields)).

Definition has_key (k : string) (v : value) : bool :=
  match v with
  | Object members => existsb (fun m => String.eqb (fst m) k) members
  | _ => false
  end.

Definition member (k : string) (v : value) : option value :=
  match v with
  | Object members =>
      match find (fun m => String.eqb (fst m) k) members with
      | Some m => Some (snd m)
      | None => None
      end
  | _ => None
  end.

End JSON.

(** ** Time, identifiers and the network *)

Definition Time : Type := Z.
Definition Duration : Type := Z.

(** [time.Second], in nanoseconds. *)
Definition Second : Duration := 1000000000%Z.

(** [t.After(u)]: the instant [t] is strictly later than [u]. *)
Definition After (t u : Time) : bool := (u <? t)%Z.

(** A [*logrus.Entry].  The debug lines the client writes through it
    change nothing the client reads back and are left out. *)
Inductive Entry : Type := entry (name : string).

(** The zero [time.Time], the first instant of year 1. *)
Definition zeroTime : Time := (-62135596800000000000)%Z.

Definition StatusOK : Z := 200%Z.

Record Request : Type := mkRequest {
  Method : string;
  URL : string;
  Header : list (string * string);
  Payload : option string;
  Deadline : Duration
}.

Record Response : Type := mkResponse {
  StatusCode : Z;
  Body : Reader
}.

(** [req.Header.Set(k, v)]. *)
Definition Header_Set (k v : string) (req : Request) : Request :=
  mkRequest (Method req) (URL req)
    (filter (fun h => negb (String.eqb (fst h) k)) (Header req) ++ [(k, v)])
    (Payload req) (Deadline req).

(** [http.NewRequest] with one of the two fixed methods and addresses of
    the client, for which it gives no error. *)
Definition NewRequest (method url : string) (body : option string)
  : Request * option error :=
  (mkRequest method url [] body 0%Z, None).

(** What lies outside the client: the clock, the identifiers
    [uuid.NewString] hands out, the remote service (its answer may depend
    on the requests made before) and the requests made so far. *)
Record World : Type := mkWorld {
  now : Time;
  fresh : nat -> string;
  drawn : nat;
  remote : list Request -> Request -> Response + error;
  sent : list Request
}.

(** [uuid.NewString()]. *)
Definition NewString (w : World) : string * World :=
  (fresh w (drawn w),
   mkWorld (now w) (fresh w) (S (drawn w)) (remote w) (sent w)).

(** [(&http.Client{Timeout: timeout}).Do(req)]. *)
Definition Do (timeout : Duration) (req : Request) (w : World)
  : (Response + error) * World :=
  let req' :=
    mkRequest (Method req) (URL req) (Header req) (Payload req) timeout in
  (remote w (sent w) req',
   mkWorld (now w) (fresh w) (drawn w) (remote w) (sent w ++ [req'])).

(** ** The structs of [chatgpt.go] *)

Record ChatGPT : Type := mkChatGPT {
  SessionToken : string;
  ClearanceToken : string;
  AccessToken : string;
  AccessTokenExpires : Time;
  Log : option Entry;
  Timeout : Duration;
  UserAgent : string
}.

Module ChatGPTOptions.
Record t : Type := mk {
  SessionToken : string;
  ClearanceToken : string;
  UserAgent : string;
  Log : option Entry;
  Timeout : option Duration
}.
End ChatGPTOptions.

Module SessionResult.
Record user : Type := mkUser {
  Id : string;
  Name : string;
  Email : string;
  Image : string;
  Picture : string;
  Groups : list JSON.value;
  Features : list JSON.value
}.
Record t : Type := mk {
  User : user;
  Expires : Time;
  AccessToken : string;
  Error : string
}.
(** [SessionResult{}]. *)
Definition zero : t :=
  mk (mkUser EmptyString EmptyString EmptyString EmptyString EmptyString
        [] [])
     zeroTime EmptyString EmptyString.
End SessionResult.

(** A [Conversation] points at its [ChatGPT]; the struct pointed at is
    kept in the field and written back when a call has changed it. *)
Record Conversation : Type := mkConversation {
  ChatGPT_ : ChatGPT;
  ConversationId : string;
  ParentMessageId : string
}.

(** The anonymous [Content] struct of a message. *)
Record Content : Type := mkContent {
  ContentType : string;
  Parts : list string
}.

Module ConversationBodyMessage.
Record t : Type := mk {
  Id : string;
  Role : string;
  Content_ : Content
}.
End ConversationBodyMessage.

Module ConversationBody.
Record t : Type := mk {
  Action : string;
  Messages : list ConversationBodyMessage.t;
  ParentMessageId : string;
  Model : string;
  ConversationId : string
}.
End ConversationBody.

Module ConversationResult.
Record message : Type := mkMessage {
  Id : string;
  Role : string;
  User : JSON.value;
  CreateTime : JSON.value;
  UpdateTime : JSON.value;
  Content_ : Content;
  EndTurn : JSON.value;
  Weight : string;
  Recipient : string
}.
Record t : Type := mk {
  Message : message;
  ConversationId : string;
  Error : JSON.value
}.
(** [ConversationResult{}].  [Weight], a [float64], is kept as the
    number literal it was read from; the empty [Metadata] struct holds
    nothing. *)
Definition zero : t :=
  mk (mkMessage EmptyString EmptyString JSON.Null JSON.Null JSON.Null
        (mkContent EmptyString []) JSON.Null "0" EmptyString)
     EmptyString JSON.Null.
End ConversationResult.

(** ** [NewChatGPT] (lines 34-51) *)

Definition NewChatGPT (options : ChatGPTOptions.t)
  : option ChatGPT * option error :=
  if String.eqb (ChatGPTOptions.SessionToken options) EmptyString
     || String.eqb (ChatGPTOptions.ClearanceToken options) EmptyString
     || String.eqb (ChatGPTOptions.UserAgent options) EmptyString
  then
    (None,
     Some (Errorf "sessionToken and clearanceToken and userAgent must set" []))
  else
    let c :=
      mkChatGPT (ChatGPTOptions.SessionToken options)
        (ChatGPTOptions.ClearanceToken options) EmptyString zeroTime
        (ChatGPTOptions.Log options) 0%Z
        (ChatGPTOptions.UserAgent options) in
    match ChatGPTOptions.Timeout options with
    | Some timeout =>
        (Some (mkChatGPT (SessionToken c) (ClearanceToken c) (AccessToken c)
                 (AccessTokenExpires c) (Log c) timeout (UserAgent c)),
         None)
    | None =>
        (Some (mkChatGPT (SessionToken c) (ClearanceToken c) (AccessToken c)
                 (AccessTokenExpires c) (Log c) (Second * 10)%Z (UserAgent c)),
         None)
    end.

(** [c.IsAccessTokenExpired()] (lines 68-70). *)
Definition IsAccessTokenExpired (c : ChatGPT) (w : World) : bool :=
  After (now w) (AccessTokenExpires c).

(** [c.NewConversation] (lines 131-137). *)
Definition NewConversation (c : ChatGPT) (conversationId parentMessageId : string)
  : Conversation :=
  mkConversation c conversationId parentMessageId.

(** ** The request body and its wire form (lines 139-154, 186-197) *)

Definition Content_value (c : Content) : JSON.value :=
  JSON.encode_struct
    [JSON.mkField "content_type" false (JSON.Str (ContentType c));
     JSON.mkField "parts" false (JSON.Array (map JSON.Str (Parts c)))].

Definition ConversationBodyMessage_value (m : ConversationBodyMessage.t)
  : JSON.value :=
  JSON.encode_struct
    [JSON.mkField "id" false (JSON.Str (ConversationBodyMessage.Id m));
     JSON.mkField "role" false (JSON.Str (ConversationBodyMessage.Role m));
     JSON.mkField "content" false
       (Content_value (ConversationBodyMessage.Content_ m))].

(** The fields of [ConversationBody] with their tags; only
    [conversation_id] carries [omitempty]. *)
Definition ConversationBody_value (b : ConversationBody.t) : JSON.value :=
  JSON.encode_struct
    [JSON.mkField "action" false (JSON.Str (ConversationBody.Action b));
     JSON.mkField "messages" false
       (JSON.Array
          (map ConversationBodyMessage_value (ConversationBody.Messages b)));
     JSON.mkField "parent_message_id" false
       (JSON.Str (ConversationBody.ParentMessageId b));
     JSON.mkField "model" false (JSON.Str (ConversationBody.Model b));
     JSON.mkField "conversation_id" true
       (JSON.Str (ConversationBody.ConversationId b))].

(** [json.Marshal(b)]; strings and slices of strings always encode. *)
Definition Marshal (b : ConversationBody.t) : string * option error :=
  (JSON.render (ConversationBody_value b), None).

(** [b.Reader()] (lines 186-192). *)
Definition Reader_ (b : ConversationBody.t) : option string * option error :=
  let '(bs, err) := Marshal b in
  match err with
  | Some e => (None, Some e)
  | None => (Some bs, None)
  end.

(** [r.GetMessage()] (lines 177-179): indexing an empty slice panics. *)
Definition GetMessage (r : ConversationResult.t)
  : outcome (string * option error) :=
  match Parts (ConversationResult.Content_ (ConversationResult.Message r)) with
  | part :: _ => Returns (part, None)
  | [] => Panics "index out of range [0] with length 0"
  end.

(** The body [SendMessage] builds (lines 206-224). *)
Definition outbound (c : Conversation) (id message : string)
  : ConversationBody.t :=
  let body :=
    ConversationBody.mk "next"
      [ConversationBodyMessage.mk id "user" (mkContent "text" [message])]
      (ParentMessageId c) "text-davinci-002-render" EmptyString in
  if negb (String.eqb (ConversationId c) EmptyString) then
    ConversationBody.mk (ConversationBody.Action body)
      (ConversationBody.Messages body) (ConversationBody.ParentMessageId body)
      (ConversationBody.Model body) (ConversationId c)
  else body.

(** ** The two operations that talk to the service *)

Section Client.

(** [json.Unmarshal(data, &v)] at the two result types: the struct
    after the call and the error. *)
Variable Unmarshal_SessionResult :
  string -> SessionResult.t -> SessionResult.t * option error.
Variable Unmarshal_ConversationResult :
  string -> ConversationResult.t -> ConversationResult.t * option error.

(** The headers of the session request (lines 78-85). *)
Definition session_headers (c : ChatGPT) (req : Request) : Request :=
  let req :=
    Header_Set "cookie"
      ("cf_clearance=" ++ ClearanceToken c
       ++ "; __Secure-next-auth.session-token=" ++ SessionToken c) req in
  let req := Header_Set "user-agent" (UserAgent c) req in
  let req := Header_Set "x-openai-assistant-app-id" EmptyString req in
  let req := Header_Set "accept-language" "en-US,en;q=0.9" req in
  let req := Header_Set "origin" "https://chat.openai.com" req in
  Header_Set "referer" "https://chat.openai.com/chat" req.

(** [c.RefreshAccessToken()] (lines 72-123): the error, the struct
    after the call and the world after it. *)
Definition RefreshAccessToken (c : ChatGPT) (w : World)
  : option error * ChatGPT * World :=
  if String.eqb (AccessToken c) EmptyString || IsAccessTokenExpired c w then
    match NewRequest "GET" "https://chat.openai.com/api/auth/session" None with
    | (_, Some err) => (Some err, c, w)
    | (req, None) =>
        let req := session_headers c req in
        let '(resp, w) := Do (Timeout c) req w in
        match resp with
        | inr err => (Some err, c, w)
        | inl resp =>
            let '(b, err) := ReadAll (Body resp) in
            match err with
            | Some err => (Some (Errorf "read body: %w" [ArgW err]), c, w)
            | None =>
                if negb (StatusCode resp =? StatusOK)%Z then
                  (Some (Errorf "response status=%d not 200"
                           [ArgD (StatusCode resp)]), c, w)
                else
                  let '(respJson, err) :=
                    Unmarshal_SessionResult b SessionResult.zero in
                  match err with
                  | Some err =>
                      (Some (Errorf "JSON %s format: %w" [ArgS b; ArgW err]),
                       c, w)
                  | None =>
                      if String.eqb (SessionResult.AccessToken respJson)
                           EmptyString
                      then
                        (Some (Errorf "response not containes accessToken: %s"
                                 [ArgS b]), c, w)
                      else if negb (String.eqb (SessionResult.Error respJson)
                                      EmptyString)
                      then
                        (Some (Errorf "response has error: %s"
                                 [ArgS (SessionResult.Error respJson)]), c, w)
                      else
                        (None,
                         mkChatGPT (SessionToken c) (ClearanceToken c)
                           (SessionResult.AccessToken respJson)
                           (SessionResult.Expires respJson)
                           (Log c) (Timeout c) (UserAgent c),
                         w)
                  end
            end
        end
    end
  else (None, c, w).

(** The headers of the conversation request (lines 236-245). *)
Definition conversation_headers (c : Conversation) (req : Request) : Request :=
  let req := Header_Set "authorization" (AccessToken (ChatGPT_ c)) req in
  let req := Header_Set "content-type" "application/json" req in
  let req := Header_Set "user-agent" (UserAgent (ChatGPT_ c)) req in
  let req := Header_Set "accept" "text/event-stream" req in
  let req :=
    Header_Set "cookie" ("cf_clearance=" ++ ClearanceToken (ChatGPT_ c)) req in
  let req := Header_Set "x-openai-assistant-app-id" EmptyString req in
  let req := Header_Set "accept-language" "en-US,en;q=0.9" req in
  let req := Header_Set "origin" "https://chat.openai.com" req in
  Header_Set "referer" "https://chat.openai.com/chat" req.

Definition set_ChatGPT (g : ChatGPT) (c : Conversation) : Conversation :=
  mkConversation g (ConversationId c) (ParentMessageId c).

Definition set_ParentMessageId (id : string) (c : Conversation) : Conversation :=
  mkConversation (ChatGPT_ c) (ConversationId c) id.

Definition set_linkage (r : ConversationResult.t) (c : Conversation)
  : Conversation :=
  mkConversation (ChatGPT_ c) (ConversationResult.ConversationId r)
    (ConversationResult.Id (ConversationResult.Message r)).

Definition fails (err : error) : outcome (string * option error) :=
  Returns (EmptyString, Some err).

(** [c.SendMessage(message)] (lines 199-299): what the call leaves
    behind, the conversation and the world after it; [None] when the
    reading loop is still running after [fuel] rounds. *)
Definition SendMessage (fuel : nat) (c : Conversation) (message : string)
    (w : World)
  : option (outcome (string * option error) * Conversation * World) :=
  let '(c, w) :=
    if String.eqb (ParentMessageId c) EmptyString then
      let '(id, w) := NewString w in (set_ParentMessageId id c, w)
    else (c, w) in
  let '(err, g, w) := RefreshAccessToken (ChatGPT_ c) w in
  let c := set_ChatGPT g c in
  match err with
  | Some err =>
      Some (fails (Errorf "refresh access token: %w" [ArgW err]), c, w)
  | None =>
      let '(id, w) := NewString w in
      let body := outbound c id message in
      let '(bodyReader, err) := Reader_ body in
      match err with
      | Some err => Some (fails err, c, w)
      | None =>
          match
            NewRequest "POST"
              "https://chat.openai.com/backend-api/conversation" bodyReader
          with
          | (_, Some err) => Some (fails err, c, w)
          | (req, None) =>
              let req := conversation_headers c req in
              let '(resp, w) := Do (Timeout (ChatGPT_ c)) req w in
              match resp with
              | inr err => Some (fails err, c, w)
              | inl resp =>
                  if negb (StatusCode resp =? StatusOK)%Z then
                    let '(body, _) := ReadAll (Body resp) in
                    Some (fails (Errorf "response status code=%d, body=%s"
                                   [ArgD (StatusCode resp); ArgS body]),
                          c, w)
                  else
                    match read_loop fuel (Body resp) EmptyString with
                    | None => None
                    | Some (inl err) => Some (fails err, c, w)
                    | Some (inr respMessage) =>
                        let '(result, err) :=
                          Unmarshal_ConversationResult respMessage
                            ConversationResult.zero in
                        match err with
                        | Some err => Some (fails err, c, w)
                        | None =>
                            let c := set_linkage result c in
                            Some (GetMessage result, c, w)
                        end
                    end
              end
          end
      end
  end.

End Client.

(** ** Filling the result structs from JSON

    [json.Unmarshal] writes into the struct it is given: a [null] leaves
    a field as it was, a value of the wrong kind is recorded as an error
    (the first one is reported) and reading goes on, a key is matched to
    a field by its exact name or else without regard to case, and unknown
    keys are passed over. *)

Module Decode.
Import JSON.

Definition decoder (A : Type) : Type := A -> value -> A * option error.

Definition kind (v : value) : string :=
  match v with
  | Null => "null"
  | Bool _ => "bool"
  | Number _ => "number"
  | Str _ => "string"
  | Array _ => "array"
  | Object _ => "object"
  end.

Definition type_error (v : value) (goType : string) : error :=
  JSONError ("json: cannot unmarshal " ++ kind v
             ++ " into Go value of type " ++ goType).

Definition syntax_error : error := JSONError "json: syntax error".

Definition first (a b : option error) : option error :=
  match a with
  | Some _ => a
  | None => b
  end.

Definition string_ : decoder string :=
  fun old v =>
    match v with
    | Str s => (s, None)
    | Null => (old, None)
    | _ => (old, Some (type_error v "string"))
    end.

Fixpoint number_of (s : string) (acc : Z) : Z :=
  match s with
  | String c s' => number_of s' (acc * 10 + Z.of_N (N_of_ascii c) - 48)%Z
  | EmptyString => acc
  end.

(** The digits of a number literal without sign and point, and the
    power of ten they are to be multiplied by. *)
Definition decimal_parts (literal : string) : string * Z :=
  let unsigned :=
    match literal with
    | String c s' => if Ascii.eqb c "-" then s' else literal
    | EmptyString => literal
    end in
  let '(int, s1) := digits unsigned in
  let '(frac, s2) :=
    match s1 with
    | String c s' => if Ascii.eqb c "." then digits s' else (EmptyString, s1)
    | EmptyString => (EmptyString, s1)
    end in
  let expo :=
    match s2 with
    | String _ s' =>
        match s' with
        | String g t =>
            if Ascii.eqb g "-" then (- number_of (fst (digits t)) 0)%Z
            else if Ascii.eqb g "+" then number_of (fst (digits t)) 0%Z
            else number_of (fst (digits s')) 0%Z
        | EmptyString => 0%Z
        end
    | EmptyString => 0%Z
    end in
  (int ++ frac, (expo - Z.of_nat (String.length frac))%Z).

(** The least magnitude that a [float64] cannot hold: half a unit in
    the last place above the largest one, [2^1024 - 2^970]. *)
Definition float64_limit : Z := (2 ^ 1024 - 2 ^ 970)%Z.

(** [strconv.ParseFloat(literal, 64)] reports a range error: the
    literal rounds to an infinity. *)
Definition overflows (literal : string) : bool :=
  let '(ds, k) := decimal_parts literal in
  let d := number_of ds 0%Z in
  let len := Z.of_nat (String.length ds) in
  if (d =? 0)%Z then false
  else if (310 <? k)%Z then true
  else if (k + len <? 300)%Z then false
  else if (0 <=? k)%Z then (float64_limit <=? d * 10 ^ k)%Z
  else (float64_limit * 10 ^ (- k) <=? d)%Z.

Definition number_error (literal : string) : error :=
  JSONError ("json: cannot unmarshal number " ++ literal
             ++ " into Go value of type float64").

(** The first number of a value that a [float64] cannot hold. *)
Fixpoint out_of_range (v : value) : option string :=
  match v with
  | Number literal => if overflows literal then Some literal else None
  | Array vs =>
      (fix scan (l : list value) : option string :=
         match l with
         | [] => None
         | x :: r =>
             match out_of_range x with
             | Some literal => Some literal
             | None => scan r
             end
         end) vs
  | Object ms =>
      (fix scan (l : list (string * value)) : option string :=
         match l with
         | [] => None
         | (_, x) :: r =>
             match out_of_range x with
             | Some literal => Some literal
             | None => scan r
             end
         end) ms
  | _ => None
  end.

(** An [interface{}] takes any value; its numbers become [float64]s,
    and one that is out of range is an error. *)
Definition any : decoder value :=
  fun _ v =>
    match out_of_range v with
    | Some literal => (v, Some (number_error literal))
    | None => (v, None)
    end.

(** A [float64], kept as its literal. *)
Definition float64 : decoder string :=
  fun old v =>
    match v with
    | Number literal =>
        if overflows literal then (old, Some (number_error literal))
        else (literal, None)
    | Null => (old, None)
    | _ => (old, Some (type_error v "float64"))
    end.

(** A slice: element [i] is read into the old element [i] when there is
    one, and into a zero element otherwise. *)
Fixpoint elements {A : Type} (zero : A) (elem : decoder A)
    (old : list A) (vs : list value) : list A * option error :=
  match vs with
  | [] => ([], None)
  | v :: vs' =>
      let '(x, e) := elem (hd zero old) v in
      let '(xs, e') := elements zero elem (tl old) vs' in
      (x :: xs, first e e')
  end.

Definition slice {A : Type} (goType : string) (zero : A) (elem : decoder A)
  : decoder (list A) :=
  fun old v =>
    match v with
    | Array vs => elements zero elem old vs
    | Null => ([], None)
    | _ => (old, Some (type_error v goType))
    end.

Definition lower (c : ascii) : ascii :=
  let n := N_of_ascii c in
  if between 65 n 90 then ascii_of_N (n + 32) else c.

(** A key with its letters folded as [json.Unmarshal] folds them to
    compare keys with field names: capitals lowered, and the two
    characters outside ASCII that fold to a letter, the long s (U+017F)
    and the Kelvin sign (U+212A), taken as [s] and [k]. *)
Fixpoint fold (s : string) : string :=
  match s with
  | EmptyString => EmptyString
  | String c s1 =>
      match s1 with
      | EmptyString => String (lower c) EmptyString
      | String c2 s2 =>
          if (N_of_ascii c =? 197)%N && (N_of_ascii c2 =? 191)%N
          then String "s" (fold s2)
          else
            match s2 with
            | EmptyString => String (lower c) (fold s1)
            | String c3 s3 =>
                if (N_of_ascii c =? 226)%N && (N_of_ascii c2 =? 132)%N
                   && (N_of_ascii c3 =? 170)%N
                then String "k" (fold s3)
                else String (lower c) (fold s1)
            end
      end
  end.

Definition lookup {A : Type} (fields : list (string * decoder A))
    (k : string) : option (decoder A) :=
  match find (fun f => String.eqb (fst f) k) fields with
  | Some f => Some (snd f)
  | None =>
      match find (fun f => String.eqb (fold (fst f)) (fold k)) fields with
      | Some f => Some (snd f)
      | None => None
      end
  end.

Fixpoint members {A : Type} (fields : list (string * decoder A))
    (ms : list (string * value)) (acc : A) (err : option error)
  : A * option error :=
  match ms with
  | [] => (acc, err)
  | (k, v) :: ms' =>
      match lookup fields k with
      | Some dec =>
          let '(acc', e) := dec acc v in
          members fields ms' acc' (first err e)
      | None => members fields ms' acc err
      end
  end.

Definition struct {A : Type} (goType : string)
    (fields : list (string * decoder A)) : decoder A :=
  fun old v =>
    match v with
    | Object ms => members fields ms old None
    | Null => (old, None)
    | _ => (old, Some (type_error v goType))
    end.

(** A field decoder from a decoder of the field's type. *)
Definition at_field {A B : Type} (get : A -> B) (set : B -> A -> A)
    (dec : decoder B) : decoder A :=
  fun old v => let '(b, e) := dec (get old) v in (set b old, e).

(** *** Timestamps

    [time.Time] reads its JSON text with [time.Parse] and the layout
    of RFC 3339, which is less strict than the RFC: the hour may have
    one digit, the fraction of a second may follow a comma, and a zone
    may be up to 24 hours and 60 minutes.  The text is taken from the
    decoded string, so a timestamp written with escapes, which
    [time.Time] refuses, is not told apart. *)

(** One digit or two, as [getnum] reads an hour. *)
Definition one_or_two (s : string) : option (Z * string) :=
  match s with
  | String a s' =>
      if is_digit a then
        match s' with
        | String b s'' =>
            if is_digit b
            then Some (number_of (String a (String b EmptyString)) 0%Z, s'')
            else Some (number_of (String a EmptyString) 0%Z, s')
        | EmptyString => Some (number_of (String a EmptyString) 0%Z, s')
        end
      else None
  | EmptyString => None
  end.

(** The fraction of a second, when a point or a comma and a digit
    follow the seconds: its digits and the rest. *)
Definition fraction (s : string) : string * string :=
  match s with
  | String p (String a _ as s') =>
      if (Ascii.eqb p "." || Ascii.eqb p ",") && is_digit a then digits s'
      else (EmptyString, s)
  | _ => (EmptyString, s)
  end.

(** Exactly [n] digits. *)
Definition fixed (n : nat) (s : string) : option (Z * string) :=
  let d := substring 0 n s in
  if (String.length d =? n)%nat && (String.length (fst (digits d)) =? n)%nat
  then Some (number_of d 0%Z, substring n (String.length s) s)
  else None.

Definition expect (c : ascii) (s : string) : option string :=
  match s with
  | String a s' => if Ascii.eqb a c then Some s' else None
  | EmptyString => None
  end.

(** Days from 1970-01-01 to a date of the Gregorian calendar. *)
Definition days_from_civil (y m d : Z) : Z :=
  (let y := if m <=? 2 then y - 1 else y in
   let era := y / 400 in
   let yoe := y - era * 400 in
   let doy := (153 * (if 2 <? m then m - 3 else m + 9) + 2) / 5 + d - 1 in
   let doe := yoe * 365 + yoe / 4 - yoe / 100 + doy in
   era * 146097 + doe - 719468)%Z.

Definition days_in (y m : Z) : Z :=
  (if m =? 2 then
     if ((y mod 4 =? 0) && negb (y mod 100 =? 0)) || (y mod 400 =? 0)
     then 29 else 28
   else if (m =? 4) || (m =? 6) || (m =? 9) || (m =? 11) then 30
   else 31)%Z.

(** Nine digits of a fraction of a second, in nanoseconds. *)
Definition nanos (frac : string) : Z :=
  number_of (substring 0 9 (frac ++ "000000000")) 0%Z.

Definition bind {A B : Type} (x : option A) (f : A -> option B) : option B :=
  match x with
  | Some a => f a
  | None => None
  end.

Definition Parse_RFC3339 (s : string) : option Time :=
  bind (fixed 4 s) (fun '(y, s) =>
  bind (expect "-" s) (fun s =>
  bind (fixed 2 s) (fun '(mo, s) =>
  bind (expect "-" s) (fun s =>
  bind (fixed 2 s) (fun '(d, s) =>
  bind (expect "T" s) (fun s =>
  bind (one_or_two s) (fun '(h, s) =>
  bind (expect ":" s) (fun s =>
  bind (fixed 2 s) (fun '(mi, s) =>
  bind (expect ":" s) (fun s =>
  bind (fixed 2 s) (fun '(sec, s) =>
  let '(frac, s) := fraction s in
  let zone :=
    match s with
    | "Z" => Some 0%Z
    | String sg s' =>
        bind (fixed 2 s') (fun '(zh, s') =>
        bind (expect ":" s') (fun s' =>
        bind (fixed 2 s') (fun '(zm, s') =>
        match s' with
        | EmptyString =>
            if ((24 <? zh) || (60 <? zm))%Z then None
            else if Ascii.eqb sg "+" then Some (zh * 3600 + zm * 60)%Z
            else if Ascii.eqb sg "-" then Some (- (zh * 3600 + zm * 60))%Z
            else None
        | String _ _ => None
        end)))
    | EmptyString => None
    end in
  bind zone (fun off =>
  if ((1 <=? mo) && (mo <=? 12) && (1 <=? d) && (d <=? days_in y mo)
      && (h <? 24) && (mi <? 60) && (sec <? 60))%Z
  then
    Some (((days_from_civil y mo d * 86400 + h * 3600 + mi * 60 + sec - off)
           * 1000000000 + nanos frac)%Z)
  else None)))))))))))).

Definition time_ : decoder Time :=
  fun old v =>
    match v with
    | Null => (old, None)
    | Str s =>
        match Parse_RFC3339 s with
        | Some t => (t, None)
        | None => (old, Some (Opaque "parsing time"))
        end
    | _ => (old, Some (Opaque "parsing time"))
    end.

(** *** The two result structs *)

Definition Content_ : decoder Content :=
  struct "struct"
    [("content_type",
      at_field ContentType (fun x c => mkContent x (Parts c)) string_);
     ("parts",
      at_field Parts (fun x c => mkContent (ContentType c) x)
        (slice "[]string" EmptyString string_))].

Definition message : decoder ConversationResult.message :=
  struct "struct"
    [("id", at_field ConversationResult.Id
        (fun x m => ConversationResult.mkMessage x
           (ConversationResult.Role m) (ConversationResult.User m)
           (ConversationResult.CreateTime m) (ConversationResult.UpdateTime m)
           (ConversationResult.Content_ m) (ConversationResult.EndTurn m)
           (ConversationResult.Weight m) (ConversationResult.Recipient m))
        string_);
     ("role", at_field ConversationResult.Role
        (fun x m => ConversationResult.mkMessage (ConversationResult.Id m)
           x (ConversationResult.User m)
           (ConversationResult.CreateTime m) (ConversationResult.UpdateTime m)
           (ConversationResult.Content_ m) (ConversationResult.EndTurn m)
           (ConversationResult.Weight m) (ConversationResult.Recipient m))
        string_);
     ("user", at_field ConversationResult.User
        (fun x m => ConversationResult.mkMessage (ConversationResult.Id m)
           (ConversationResult.Role m) x
           (ConversationResult.CreateTime m) (ConversationResult.UpdateTime m)
           (ConversationResult.Content_ m) (ConversationResult.EndTurn m)
           (ConversationResult.Weight m) (ConversationResult.Recipient m))
        any);
     ("create_time", at_field ConversationResult.CreateTime
        (fun x m => ConversationResult.mkMessage (ConversationResult.Id m)
           (ConversationResult.Role m) (ConversationResult.User m)
           x (ConversationResult.UpdateTime m)
           (ConversationResult.Content_ m) (ConversationResult.EndTurn m)
           (ConversationResult.Weight m) (ConversationResult.Recipient m))
        any);
     ("update_time", at_field ConversationResult.UpdateTime
        (fun x m => ConversationResult.mkMessage (ConversationResult.Id m)
           (ConversationResult.Role m) (ConversationResult.User m)
           (ConversationResult.CreateTime m) x
           (ConversationResult.Content_ m) (ConversationResult.EndTurn m)
           (ConversationResult.Weight m) (ConversationResult.Recipient m))
        any);
     ("content", at_field ConversationResult.Content_
        (fun x m => ConversationResult.mkMessage (ConversationResult.Id m)
           (ConversationResult.Role m) (ConversationResult.User m)
           (ConversationResult.CreateTime m) (ConversationResult.UpdateTime m)
           x (ConversationResult.EndTurn m)
           (ConversationResult.Weight m) (ConversationResult.Recipient m))
        Content_);
     ("end_turn", at_field ConversationResult.EndTurn
        (fun x m => ConversationResult.mkMessage (ConversationResult.Id m)
           (ConversationResult.Role m) (ConversationResult.User m)
           (ConversationResult.CreateTime m) (ConversationResult.UpdateTime m)
           (ConversationResult.Content_ m) x
           (ConversationResult.Weight m) (ConversationResult.Recipient m))
        any);
     ("weight", at_field ConversationResult.Weight
        (fun x m => ConversationResult.mkMessage (ConversationResult.Id m)
           (ConversationResult.Role m) (ConversationResult.User m)
           (ConversationResult.CreateTime m) (ConversationResult.UpdateTime m)
           (ConversationResult.Content_ m) (ConversationResult.EndTurn m)
           x (ConversationResult.Recipient m))
        float64);
     ("metadata", struct "struct" []);
     ("recipient", at_field ConversationResult.Recipient
        (fun x m => ConversationResult.mkMessage (ConversationResult.Id m)
           (ConversationResult.Role m) (ConversationResult.User m)
           (ConversationResult.CreateTime m) (ConversationResult.UpdateTime m)
           (ConversationResult.Content_ m) (ConversationResult.EndTurn m)
           (ConversationResult.Weight m) x)
        string_)].

Definition ConversationResult_ : decoder ConversationResult.t :=
  struct "chatgpt_go.ConversationResult"
    [("message", at_field ConversationResult.Message
        (fun x r => ConversationResult.mk x
           (ConversationResult.ConversationId r) (ConversationResult.Error r))
        message);
     ("conversation_id", at_field ConversationResult.ConversationId
        (fun x r => ConversationResult.mk (ConversationResult.Message r) x
           (ConversationResult.Error r))
        string_);
     ("error", at_field ConversationResult.Error
        (fun x r => ConversationResult.mk (ConversationResult.Message r)
           (ConversationResult.ConversationId r) x)
        any)].

Definition user : decoder SessionResult.user :=
  let anys := slice "[]interface {}" Null any in
  struct "struct"
    [("id", at_field SessionResult.Id
        (fun x u => SessionResult.mkUser x (SessionResult.Name u)
           (SessionResult.Email u) (SessionResult.Image u)
           (SessionResult.Picture u) (SessionResult.Groups u)
           (SessionResult.Features u)) string_);
     ("name", at_field SessionResult.Name
        (fun x u => SessionResult.mkUser (SessionResult.Id u) x
           (SessionResult.Email u) (SessionResult.Image u)
           (SessionResult.Picture u) (SessionResult.Groups u)
           (SessionResult.Features u)) string_);
     ("email", at_field SessionResult.Email
        (fun x u => SessionResult.mkUser (SessionResult.Id u)
           (SessionResult.Name u) x (SessionResult.Image u)
           (SessionResult.Picture u) (SessionResult.Groups u)
           (SessionResult.Features u)) string_);
     ("image", at_field SessionResult.Image
        (fun x u => SessionResult.mkUser (SessionResult.Id u)
           (SessionResult.Name u) (SessionResult.Email u) x
           (SessionResult.Picture u) (SessionResult.Groups u)
           (SessionResult.Features u)) string_);
     ("picture", at_field SessionResult.Picture
        (fun x u => SessionResult.mkUser (SessionResult.Id u)
           (SessionResult.Name u) (SessionResult.Email u)
           (SessionResult.Image u) x (SessionResult.Groups u)
           (SessionResult.Features u)) string_);
     ("groups", at_field SessionResult.Groups
        (fun x u => SessionResult.mkUser (SessionResult.Id u)
           (SessionResult.Name u) (SessionResult.Email u)
           (SessionResult.Image u) (SessionResult.Picture u) x
           (SessionResult.Features u)) anys);
     ("features", at_field SessionResult.Features
        (fun x u => SessionResult.mkUser (SessionResult.Id u)
           (SessionResult.Name u) (SessionResult.Email u)
           (SessionResult.Image u) (SessionResult.Picture u)
           (SessionResult.Groups u) x) anys)].

Definition SessionResult_ : decoder SessionResult.t :=
  struct "chatgpt_go.SessionResult"
    [("user", at_field SessionResult.User
        (fun x r => SessionResult.mk x (SessionResult.Expires r)
           (SessionResult.AccessToken r) (SessionResult.Error r)) user);
     ("expires", at_field SessionResult.Expires
        (fun x r => SessionResult.mk (SessionResult.User r) x
           (SessionResult.AccessToken r) (SessionResult.Error r)) time_);
     ("accessToken", at_field SessionResult.AccessToken
        (fun x r => SessionResult.mk (SessionResult.User r)
           (SessionResult.Expires r) x (SessionResult.Error r)) string_);
     ("error", at_field SessionResult.Error
        (fun x r => SessionResult.mk (SessionResult.User r)
           (SessionResult.Expires r) (SessionResult.AccessToken r) x)
        string_)].

(** [json.Unmarshal(data, &v)]: the text is checked as a whole, then
    the struct is filled. *)
Definition Unmarshal {A : Type} (dec : decoder A) (data : string) (v : A)
  : A * option error :=
  match parse data with
  | Some j => dec v j
  | None => (v, Some syntax_error)
  end.

Definition Unmarshal_SessionResult := Unmarshal SessionResult_.
Definition Unmarshal_ConversationResult := Unmarshal ConversationResult_.

End Decode.

(** ** Lines and streams of lines, for stating the properties *)

(** [s] holds the byte [c]. *)
Fixpoint has_byte (c : ascii) (s : string) : bool :=
  match s with
  | EmptyString => false
  | String a s' => Ascii.eqb a c || has_byte c s'
  end.

(** [s] holds the separator [": "]. *)
Definition has_delim (s : string) : bool :=
  match Cut s delim with
  | Some _ => true
  | None => false
  end.

(** A line of an event stream before its line feed: a [data: ] line
    with its payload, or any other text. *)
Inductive line : Type :=
| Data (payload : string)
| Other (text : string).

Definition wire (l : line) : string :=
  match l with
  | Data payload => "data: " ++ payload ++ newline
  | Other text => text ++ newline
  end.

(** A payload holds no line feed and is not the sentinel; a line of the
    other kind holds no line feed and no separator (the empty one is the
    line of one byte). *)
Definition line_ok (l : line) : bool :=
  match l with
  | Data payload =>
      negb (has_byte LF payload) && negb (String.eqb payload "[DONE]")
  | Other text => negb (has_byte LF text) && negb (has_delim text)
  end.

Definition sentinel : string := "data: [DONE]" ++ newline.

(** The lines [ls], in order, followed by [tail]. *)
Fixpoint stream (ls : list line) (tail : string) : string :=
  match ls with
  | [] => tail
  | l :: ls' => wire l ++ stream ls' tail
  end.

(** The payload of the last [data: ] line of [ls], [init] when there is
    none. *)
Fixpoint captured (ls : list line) (init : string) : string :=
  match ls with
  | [] => init
  | Data payload :: ls' => captured ls' payload
  | Other _ :: ls' => captured ls' init
  end.

(** The conversation after the first statement of [SendMessage]
    (lines 200-202). *)
Definition rooted (c : Conversation) (w : World) : Conversation :=
  if String.eqb (ParentMessageId c) EmptyString
  then mkConversation (ChatGPT_ c) (ConversationId c) (fresh w (drawn w))
  else c.

(** The payloads of the [data: ] lines of [ls], in order. *)
Fixpoint payloads (ls : list line) : list string :=
  match ls with
  | [] => []
  | Data payload :: ls' => payload :: payloads ls'
  | Other _ :: ls' => payloads ls'
  end.

(** ** Sample data *)

(** Sample JSON texts are written with an apostrophe for each quote. *)
Fixpoint json_text (s : string) : string :=
  match s with
  | String c s' =>
      String (if Ascii.eqb c "'" then JSON.DQ else c) (json_text s')
  | EmptyString => EmptyString
  end.

Fixpoint decimal (width n : nat) : string :=
  match width with
  | 0 => EmptyString
  | S width' =>
      decimal width' (n / 10)
      ++ String (ascii_of_nat (48 + n mod 10)) EmptyString
  end.

Definition sample_ids (n : nat) : string :=
  "6fa459ea-ee8a-4ca4-894e-" ++ decimal 12 n.

(** A service that answers the session request with [session] and any
    other request with [conversation]. *)
Definition service (session conversation : Response + error)
  : list Request -> Request -> Response + error :=
  fun _ req => if String.eqb (Method req) "GET" then session else conversation.

Definition events (s : string) : Response + error :=
  inl (mkResponse StatusOK (mkReader s io_EOF)).

Definition unreachable : Response + error :=
  inr (Opaque "dial tcp: connection refused").

Definition sample_world (t : Time) (session conversation : Response + error)
  : World :=
  mkWorld t sample_ids 0 (service session conversation) [].

(** A client holding a token that runs out at instant 2000, and one that
    holds none yet. *)
Definition signed_in : ChatGPT :=
  mkChatGPT "session" "clearance" "token" 2000%Z None (Second * 10)%Z "agent".

Definition signed_out : ChatGPT :=
  mkChatGPT "session" "clearance" EmptyString zeroTime None (Second * 10)%Z
    "agent".

Definition hello_payload : string :=
  json_text
    "{'message':{'id':'m2','content':{'parts':['Hello!']}},'conversation_id':'c1'}".

Definition no_parts_payload : string :=
  json_text "{'message':{'id':'m3','content':{'parts':[]}},'conversation_id':'c1'}".

(** ** The requests the client makes, for stating the properties *)

(** [b.JSON()] (lines 194-197): the bytes of [json.Marshal], the error
    dropped. *)
Definition ConversationBody_JSON (b : ConversationBody.t) : string :=
  fst (Marshal b).

(** The request [RefreshAccessToken] hands to the transport (lines
    74-87). *)
Definition session_request (c : ChatGPT) : Request :=
  let req :=
    session_headers c
      (fst (NewRequest "GET" "https://chat.openai.com/api/auth/session" None)) in
  mkRequest (Method req) (URL req) (Header req) (Payload req) (Timeout c).

(** The world after the first statement of [SendMessage] (lines
    200-202). *)
Definition root_world (c : Conversation) (w : World) : World :=
  if String.eqb (ParentMessageId c) EmptyString then snd (NewString w) else w.

(** The request [SendMessage] hands to the transport when the cached
    token is used as it is (lines 206-246). *)
Definition conversation_request (c : Conversation) (message : string)
    (w : World) : Request :=
  let c1 := rooted c w in
  let body := outbound c1 (fst (NewString (root_world c w))) message in
  let req :=
    conversation_headers c1
      (fst (NewRequest "POST"
              "https://chat.openai.com/backend-api/conversation"
              (fst (Reader_ body)))) in
  mkRequest (Method req) (URL req) (Header req) (Payload req)
    (Timeout (ChatGPT_ c)).

(** The world after that request. *)
Definition after_post (c : Conversation) (message : string) (w : World)
  : World :=
  let w2 := snd (NewString (root_world c w)) in
  mkWorld (now w2) (fresh w2) (drawn w2) (remote w2)
    (sent w2 ++ [conversation_request c message w]).

(** A session reply with a token that runs out in January 2023, and the
    instant it runs out at, in nanoseconds. *)
Definition session_payload : string :=
  json_text
    "{'user':{'id':'u1','groups':[]},'expires':'2023-01-08T12:00:00.000Z','accessToken':'fresh-token'}".

Definition session_expiry : Time := 1673179200000000000%Z.

Definition answers (status : Z) (s : string) : Response + error :=
  inl (mkResponse status (mkReader s io_EOF)).

(** A reply that carries an error text beside two parts. *)
Definition error_payload : string :=
  json_text
    "{'message':{'id':'m4','content':{'parts':['partial','more']}},'conversation_id':'c1','error':'quota exceeded'}".

(** ** Lines with any field name, for stating the properties *)






(** The serialized envelope up to and including its [model] member. *)
Definition envelope_head (parentMessageId id message : string) : string :=
  json_text "{'action':'next','messages':[{'id':" ++ JSON.quote id
  ++ json_text ",'role':'user','content':{'content_type':'text','parts':["
  ++ JSON.quote message
  ++ json_text "]}}],'parent_message_id':" ++ JSON.quote parentMessageId
  ++ json_text ",'model':'text-davinci-002-render'".

(** * Properties *)

(** ** Strings *)

Lemma append_assoc (a b c : string) : (a ++ b) ++ c = a ++ b ++ c.
Proof. induction a as [|x a IH]; simpl; [reflexivity | now rewrite IH]. Qed.

Lemma cutAfter_line (l rest : string) :
  has_byte LF l = false ->
  cutAfter LF (l ++ String LF rest) = Some (l ++ newline, rest).
Proof.
  induction l as [|a l IH]; simpl; intros H.
  - reflexivity.
  - apply orb_false_iff in H as [Ha Hl].
    now rewrite Ha, (IH Hl).
Qed.

Lemma ReadBytes_line (l rest : string) (e : error) :
  has_byte LF l = false ->
  ReadBytes (mkReader (l ++ String LF rest) e) LF
  = ((l ++ newline, None), mkReader rest e).
Proof.
  intros H. unfold ReadBytes. simpl. now rewrite (cutAfter_line _ _ H).
Qed.

Lemma TrimSuffix_newline (p : string) :
  has_byte LF p = false -> TrimSuffix (p ++ newline) newline = p.
Proof.
  induction p as [|a p IH]; intros H.
  - reflexivity.
  - cbn [has_byte] in H. apply orb_false_iff in H as [Ha Hp].
    change (String a p ++ newline) with (String a (p ++ newline)).
    cbn [TrimSuffix]. rewrite (IH Hp).
    replace (String.eqb (String a (p ++ newline)) newline) with false;
      [reflexivity|].
    unfold newline at 2. cbn [String.eqb]. now rewrite Ha.
Qed.

Lemma Cut_newline (t : string) :
  Cut t delim = None -> Cut (t ++ newline) delim = None.
Proof.
  induction t as [|a t IH]; intros H.
  - reflexivity.
  - change (String a t ++ newline) with (String a (t ++ newline)).
    cbn [Cut] in *.
    destruct (CutPrefix (String a t) delim) eqn:Hp; [discriminate H|].
    destruct (Cut t delim) as [[b r]|] eqn:Hc; [discriminate H|].
    rewrite (IH eq_refl).
    replace (CutPrefix (String a (t ++ newline)) delim) with (@None string);
      [reflexivity|].
    unfold delim in *. cbn [CutPrefix] in *.
    destruct (Ascii.eqb a ":"); [|reflexivity].
    destruct t as [|b t]; [reflexivity|].
    cbn [append CutPrefix] in *.
    destruct (Ascii.eqb b " "); [discriminate Hp | reflexivity].
Qed.

(** ** One round of the loop *)

(** Skip rule: a line of fewer than two bytes, or without the separator,
    leaves the captured candidate as it is and the loop goes on. *)
Lemma loop_body_skip (bs : string) (err : option error) (respMessage : string) :
  failed err = None ->
  String.length bs < 2 \/ has_delim bs = false ->
  loop_body bs err respMessage = Continue respMessage.
Proof.
  intros Hf H. unfold loop_body. rewrite Hf.
  destruct (Nat.ltb_spec (String.length bs) 2) as [Hl|Hl]; [reflexivity|].
  destruct H as [H|H]; [lia|].
  unfold has_delim in H. cbn [SplitN].
  destruct (Cut bs delim) as [[b r]|]; [discriminate H | reflexivity].
Qed.

Lemma loop_body_data (p respMessage : string) :
  has_byte LF p = false -> p <> "[DONE]" ->
  loop_body ("data: " ++ p ++ newline) None respMessage = Continue p.
Proof.
  intros Hp Hd. unfold loop_body. cbn -[TrimSuffix String.eqb newline].
  rewrite (TrimSuffix_newline _ Hp).
  destruct (String.eqb_spec p "[DONE]"); [contradiction | reflexivity].
Qed.

Lemma loop_body_done (rest respMessage : string) (err : option error) :
  failed err = None ->
  loop_body ("data: [DONE]" ++ newline) err respMessage = Break respMessage.
Proof.
  intros Hf. unfold loop_body. rewrite Hf. cbn.
  now rewrite orb_true_r.
Qed.

(** Once the stream is used up and reports [io.EOF], every further round
    reads no bytes and goes round again. *)
Lemma read_loop_drained (fuel : nat) (respMessage : string) :
  read_loop fuel (mkReader EmptyString io_EOF) respMessage = None.
Proof.
  induction fuel as [|fuel IH]; [reflexivity|].
  cbn. exact IH.
Qed.

Lemma read_loop_line (fuel : nat) (l rest : string) (e : error)
    (respMessage : string) :
  has_byte LF l = false ->
  read_loop (S fuel) (mkReader (l ++ String LF rest) e) respMessage
  = match loop_body (l ++ newline) None respMessage with
    | Continue respMessage' => read_loop fuel (mkReader rest e) respMessage'
    | Break respMessage' => Some (inr respMessage')
    | Return err => Some (inl err)
    end.
Proof.
  intros H. cbn [read_loop]. now rewrite (ReadBytes_line _ _ _ H).
Qed.

Lemma read_loop_sentinel (fuel : nat) (rest : string) (e : error)
    (respMessage : string) :
  read_loop (S fuel) (mkReader (sentinel ++ rest) e) respMessage
  = Some (inr respMessage).
Proof.
  change (sentinel ++ rest) with ("data: [DONE]" ++ String LF rest).
  rewrite read_loop_line by reflexivity.
  now rewrite (loop_body_done rest respMessage None eq_refl).
Qed.

Lemma read_loop_wire (fuel : nat) (l : line) (rest : string) (e : error)
    (respMessage : string) :
  line_ok l = true ->
  read_loop (S fuel) (mkReader (wire l ++ rest) e) respMessage
  = read_loop fuel (mkReader rest e) (captured [l] respMessage).
Proof.
  intros H. destruct l as [p|t]; cbn [line_ok wire captured] in *;
    apply andb_true_iff in H as [H1 H2];
    apply negb_true_iff in H1; apply negb_true_iff in H2.
  - change (("data: " ++ p ++ newline) ++ rest)
      with ("data: " ++ (p ++ newline) ++ rest).
    rewrite (append_assoc p newline rest).
    change ("data: " ++ p ++ newline ++ rest)
      with (("data: " ++ p) ++ String LF rest).
    rewrite read_loop_line by exact H1.
    change (("data: " ++ p) ++ newline) with ("data: " ++ p ++ newline).
    rewrite loop_body_data; [reflexivity | exact H1 |].
    now apply String.eqb_neq.
  - rewrite (append_assoc t newline rest).
    change (t ++ newline ++ rest) with (t ++ String LF rest).
    rewrite read_loop_line by exact H1.
    rewrite loop_body_skip; [reflexivity | reflexivity |].
    right. unfold has_delim in *.
    destruct (Cut t delim) eqn:Hc; [discriminate H2|].
    now rewrite (Cut_newline _ Hc).
Qed.

(** The lines before the sentinel are read one per round, and the
    sentinel line ends the loop. *)
Lemma read_loop_stream (ls : list line) (rest : string) (e : error) :
  forallb line_ok ls = true ->
  forall (fuel : nat) (respMessage : string),
    List.length ls < fuel ->
    read_loop fuel (mkReader (stream ls (sentinel ++ rest)) e) respMessage
    = Some (inr (captured ls respMessage)).
Proof.
  induction ls as [|l ls IH]; intros Hok fuel respMessage Hfuel.
  - destruct fuel as [|fuel]; [inversion Hfuel|].
    apply read_loop_sentinel.
  - cbn [forallb] in Hok. apply andb_true_iff in Hok as [Hl Hls].
    destruct fuel as [|fuel]; [inversion Hfuel|].
    cbn [stream List.length] in *.
    rewrite (read_loop_wire _ _ _ _ _ Hl).
    rewrite (IH Hls) by lia.
    destruct l; reflexivity.
Qed.

Lemma captured_last (ls : list line) (init : string) :
  captured ls init = last (payloads ls) init.
Proof.
  revert init. induction ls as [|[p|t] ls IH]; intros init; cbn [captured payloads].
  - reflexivity.
  - rewrite IH. cbn [last]. destruct (payloads ls) as [|q qs] eqn:Hq.
    + reflexivity.
    + clear. revert q. induction qs as [|r qs IHq]; intros q; [reflexivity|].
      cbn [last] in *. apply IHq.
  - apply IH.
Qed.

(** A stream of whole lines without the sentinel, ended by [io.EOF]: the
    loop reads the lines and then goes round on the empty reads. *)
Lemma read_loop_no_sentinel (ls : list line) :
  forallb line_ok ls = true ->
  forall (fuel : nat) (respMessage : string),
    read_loop fuel (mkReader (stream ls EmptyString) io_EOF) respMessage = None.
Proof.
  induction ls as [|l ls IH]; intros Hok fuel respMessage.
  - apply read_loop_drained.
  - cbn [forallb] in Hok. apply andb_true_iff in Hok as [Hl Hls].
    destruct fuel as [|fuel]; [reflexivity|].
    cbn [stream]. rewrite (read_loop_wire _ _ _ _ _ Hl).
    apply (IH Hls).
Qed.

Lemma cutAfter_none (s : string) :
  has_byte LF s = false -> cutAfter LF s = None.
Proof.
  induction s as [|a s IH]; simpl; intros H.
  - reflexivity.
  - apply orb_false_iff in H as [Ha Hs].
    now rewrite Ha, (IH Hs).
Qed.

(** The end of input does end the loop when the last chunk, without a
    line feed, has two bytes or more and holds the separator; what that
    chunk carries is not captured. *)
Lemma read_loop_last_chunk (ls : list line) (chunk : string) :
  forallb line_ok ls = true ->
  has_byte LF chunk = false ->
  2 <= String.length chunk ->
  has_delim chunk = true ->
  forall (fuel : nat) (respMessage : string),
    List.length ls < fuel ->
    read_loop fuel (mkReader (stream ls chunk) io_EOF) respMessage
    = Some (inr (captured ls respMessage)).
Proof.
  intros Hok Hlf Hlen Hd.
  induction ls as [|l ls IH]; intros fuel respMessage Hfuel.
  - destruct fuel as [|fuel]; [inversion Hfuel|].
    cbn [stream captured read_loop]. unfold ReadBytes. cbn [pending ending].
    rewrite (cutAfter_none _ Hlf). unfold loop_body. cbn [failed is_EOF].
    destruct (Nat.ltb_spec (String.length chunk) 2) as [H|_]; [lia|].
    unfold has_delim in Hd. cbn [SplitN].
    destruct (Cut chunk delim) as [[b r]|]; [reflexivity | discriminate Hd].
  - cbn [forallb] in Hok. apply andb_true_iff in Hok as [Hl Hls].
    destruct fuel as [|fuel]; [inversion Hfuel|].
    cbn [stream List.length] in *.
    rewrite (read_loop_wire _ _ _ _ _ Hl).
    rewrite (IH Hls) by lia.
    destruct l; reflexivity.
Qed.

(** ** The token *)

Section ClientProperties.

Variable US : string -> SessionResult.t -> SessionResult.t * option error.
Variable UC :
  string -> ConversationResult.t -> ConversationResult.t * option error.

Lemma refresh_cached (c : ChatGPT) (w : World) :
  AccessToken c <> EmptyString ->
  IsAccessTokenExpired c w = false ->
  RefreshAccessToken US c w = (None, c, w).
Proof.
  intros Ht He. unfold RefreshAccessToken.
  destruct (String.eqb_spec (AccessToken c) EmptyString) as [E|E];
    [contradiction|].
  now rewrite He.
Qed.

(** With a cached token and a service that answers the posted message
    with 200 and the body [br], a send is the reading loop, the decoding and the extraction. *)
Lemma SendMessage_cached (fuel : nat) (c : Conversation) (message : string)
    (w : World) (br : Reader) :
  AccessToken (ChatGPT_ c) <> EmptyString ->
  IsAccessTokenExpired (ChatGPT_ c) w = false ->
  (forall history req,
      Method req = "POST" ->
      remote w history req = inl (mkResponse StatusOK br)) ->
  exists w',
    SendMessage US UC fuel c message w
    = match read_loop fuel br EmptyString with
      | None => None
      | Some (inl err) => Some (fails err, rooted c w, w')
      | Some (inr respMessage) =>
          match UC respMessage ConversationResult.zero with
          | (_, Some err) => Some (fails err, rooted c w, w')
          | (result, None) =>
              Some (GetMessage result, set_linkage result (rooted c w), w')
          end
      end.
Proof.
  intros Ht He Hr. destruct c as [g cid pid]. unfold SendMessage, rooted.
  cbn [ParentMessageId ChatGPT_ ConversationId] in *.
  destruct (String.eqb pid EmptyString).
  - cbn [NewString set_ParentMessageId ChatGPT_ ConversationId ParentMessageId].
    rewrite refresh_cached by assumption.
    unfold Reader_, Marshal, NewRequest, Do.
    cbn [remote sent fst snd]. rewrite Hr by reflexivity.
    cbn [StatusCode Body]. change (StatusOK =? StatusOK)%Z with true.
    cbn [negb]. eexists. reflexivity.
  - rewrite refresh_cached by assumption.
    unfold Reader_, Marshal, NewRequest, Do, NewString.
    cbn [remote sent fst snd]. rewrite Hr by reflexivity.
    cbn [StatusCode Body]. change (StatusOK =? StatusOK)%Z with true.
    cbn [negb]. eexists. reflexivity.
Qed.

Lemma app_one_neq {A : Type} (l : list A) (x : A) : (l ++ [x])%list <> l.
Proof.
  intros H. apply (f_equal (@List.length A)) in H.
  rewrite length_app in H. cbn in H. lia.
Qed.

(** The request that [RefreshAccessToken] makes when it makes one. *)
Lemma refresh_sent (c : ChatGPT) (w : World) :
  sent (snd (RefreshAccessToken US c w))
  = if String.eqb (AccessToken c) EmptyString || IsAccessTokenExpired c w
    then
      (sent w
       ++ [mkRequest "GET" "https://chat.openai.com/api/auth/session"
             (Header (session_headers c (mkRequest EmptyString EmptyString []
                                           None 0%Z)))
             None (Timeout c)])%list
    else sent w.
Proof.
  unfold RefreshAccessToken.
  destruct (String.eqb (AccessToken c) EmptyString || IsAccessTokenExpired c w);
    [|reflexivity].
  unfold NewRequest, Do. cbn [fst snd].
  destruct (remote w (sent w) _) as [resp|err]; [|reflexivity].
  unfold ReadAll.
  destruct (is_EOF (ending (Body resp))); [|reflexivity].
  destruct (negb (StatusCode resp =? StatusOK)%Z); [reflexivity|].
  destruct (US (pending (Body resp)) SessionResult.zero) as [r [e|]];
    [reflexivity|].
  destruct (String.eqb (SessionResult.AccessToken r) EmptyString);
    [reflexivity|].
  destruct (negb (String.eqb (SessionResult.Error r) EmptyString));
    reflexivity.
Qed.

(** C4, as amended: the cached token counts as expired exactly when the
    current time is strictly after [AccessTokenExpires]; at the instant
    of expiry itself it still counts as valid.  A request to the session
    endpoint is made exactly when the token string is empty or the token
    is expired in that sense. *)
Theorem token_expired_strictly_after (c : ChatGPT) (w : World) :
  (IsAccessTokenExpired c w = true <-> (AccessTokenExpires c < now w)%Z)
  /\ (sent (snd (RefreshAccessToken US c w)) <> sent w
      <-> AccessToken c = EmptyString \/ (AccessTokenExpires c < now w)%Z).
Proof.
  assert (Hexp : IsAccessTokenExpired c w = true
                 <-> (AccessTokenExpires c < now w)%Z).
  { unfold IsAccessTokenExpired, After. apply Z.ltb_lt. }
  split; [exact Hexp|].
  rewrite refresh_sent.
  destruct (String.eqb_spec (AccessToken c) EmptyString) as [E|E];
    cbn [orb].
  - split; [intros _; now left | intros _; apply app_one_neq].
  - destruct (IsAccessTokenExpired c w) eqn:He.
    + split; [intros _; right; now apply Hexp | intros _; apply app_one_neq].
    + split; [intros H; now contradiction H|].
      intros [H|H]; [contradiction|].
      apply Hexp in H. discriminate H.
Qed.

(** C7: with a non-empty cached token whose expiry lies in the future,
    [RefreshAccessToken] returns no error and leaves the client and the
    world (so also the list of requests made) as they were; calling it
    again gives the same. *)
Theorem RefreshAccessToken_cached_token (c : ChatGPT) (w : World) :
  AccessToken c <> EmptyString ->
  (now w < AccessTokenExpires c)%Z ->
  RefreshAccessToken US c w = (None, c, w)
  /\ sent (snd (RefreshAccessToken US c w)) = sent w
  /\ (let '(_, c', w') := RefreshAccessToken US c w in
      RefreshAccessToken US c' w' = (None, c, w)).
Proof.
  intros Ht Hn.
  assert (H : RefreshAccessToken US c w = (None, c, w)).
  { apply refresh_cached; [exact Ht|].
    unfold IsAccessTokenExpired, After. apply Z.ltb_ge. lia. }
  rewrite H. cbn [snd]. repeat split. exact H.
Qed.

End ClientProperties.

(** C4 as first stated does not hold: at the instant of expiry the
    token is not expired for the code, and no request is made. *)
Lemma token_at_expiry_not_expired :
  (AccessTokenExpires signed_in
   <= now (sample_world 2000%Z unreachable unreachable))%Z
  /\ IsAccessTokenExpired signed_in
       (sample_world 2000%Z unreachable unreachable) = false
  /\ RefreshAccessToken Decode.Unmarshal_SessionResult signed_in
       (sample_world 2000%Z unreachable unreachable)
     = (None, signed_in, sample_world 2000%Z unreachable unreachable).
Proof. repeat split. cbn. lia. Qed.

Lemma RefreshAccessToken_cached_token_witness :
  RefreshAccessToken Decode.Unmarshal_SessionResult signed_in
    (sample_world 1000%Z unreachable unreachable)
  = (None, signed_in, sample_world 1000%Z unreachable unreachable)
  /\ sent (snd (RefreshAccessToken Decode.Unmarshal_SessionResult signed_in
                  (sample_world 1000%Z unreachable unreachable)))
     = sent (sample_world 1000%Z unreachable unreachable)
  /\ (let '(_, c', w') :=
        RefreshAccessToken Decode.Unmarshal_SessionResult signed_in
          (sample_world 1000%Z unreachable unreachable) in
      RefreshAccessToken Decode.Unmarshal_SessionResult c' w'
      = (None, signed_in, sample_world 1000%Z unreachable unreachable)).
Proof.
  apply (RefreshAccessToken_cached_token Decode.Unmarshal_SessionResult
           signed_in (sample_world 1000%Z unreachable unreachable)).
  - discriminate.
  - cbn. lia.
Defined.

(** ** Construction *)

(** C8: [NewChatGPT] fails exactly when one of the three required
    fields is empty; when none is, it gives a client that holds the three
    fields and whose timeout is the override when there is one and ten
    seconds otherwise. *)
Theorem NewChatGPT_fails_iff_empty_field (options : ChatGPTOptions.t) :
  ((exists err, NewChatGPT options = (None, Some err))
   <-> ChatGPTOptions.SessionToken options = EmptyString
       \/ ChatGPTOptions.ClearanceToken options = EmptyString
       \/ ChatGPTOptions.UserAgent options = EmptyString)
  /\ (ChatGPTOptions.SessionToken options <> EmptyString
      /\ ChatGPTOptions.ClearanceToken options <> EmptyString
      /\ ChatGPTOptions.UserAgent options <> EmptyString
      <-> exists c, NewChatGPT options = (Some c, None))
  /\ (forall c,
        NewChatGPT options = (Some c, None) ->
        SessionToken c = ChatGPTOptions.SessionToken options
        /\ ClearanceToken c = ChatGPTOptions.ClearanceToken options
        /\ UserAgent c = ChatGPTOptions.UserAgent options
        /\ Timeout c = match ChatGPTOptions.Timeout options with
                       | Some timeout => timeout
                       | None => (10 * 1000000000)%Z
                       end).
Proof.
  destruct options as [st ct ua lg tm]. unfold NewChatGPT.
  cbn [ChatGPTOptions.SessionToken ChatGPTOptions.ClearanceToken
       ChatGPTOptions.UserAgent ChatGPTOptions.Log ChatGPTOptions.Timeout].
  destruct (String.eqb_spec st EmptyString) as [Hs|Hs];
    destruct (String.eqb_spec ct EmptyString) as [Hc|Hc];
    destruct (String.eqb_spec ua EmptyString) as [Hu|Hu]; cbn [orb];
    try (split; [split; [intros _; tauto | intros _; eexists; reflexivity]
                |split; [split; [tauto | intros [c H]; discriminate H]
                        |intros c H; discriminate H]]).
  split; [|split].
  - split; [intros [err H]; destruct tm; discriminate H | tauto].
  - split; [intros _; destruct tm; eexists; reflexivity | tauto].
  - intros c H. destruct tm; injection H as <-; cbn; repeat split.
Qed.

Lemma NewChatGPT_fails_iff_empty_field_witness :
  exists c,
    NewChatGPT (ChatGPTOptions.mk "session" "clearance" "agent" None None)
    = (Some c, None)
    /\ Timeout c = 10000000000%Z
    /\ SessionToken c = "session".
Proof.
  destruct (proj1 (proj2 (NewChatGPT_fails_iff_empty_field
              (ChatGPTOptions.mk "session" "clearance" "agent" None None))))
    as [H _].
  destruct H as [c Hc]; [repeat split; discriminate|].
  exists c. split; [exact Hc|].
  destruct (proj2 (proj2 (NewChatGPT_fails_iff_empty_field
              (ChatGPTOptions.mk "session" "clearance" "agent" None None)))
              c Hc) as (H1 & _ & _ & H4).
  split; [exact H4 | exact H1].
Defined.

(** ** The request body *)

Lemma has_key_encode_struct (k : string) (fields : list JSON.field) :
  JSON.has_key k (JSON.encode_struct fields)
  = existsb (fun f => JSON.kept f && String.eqb (JSON.key f) k) fields.
Proof.
  unfold JSON.encode_struct, JSON.has_key.
  induction fields as [|f fields IH]; [reflexivity|].
  cbn [filter existsb]. destruct (JSON.kept f) eqn:Hk;
    cbn [map existsb fst andb orb].
  - now rewrite IH.
  - exact IH.
Qed.

(** C9: the bytes [SendMessage] serializes for the request are the
    envelope up to its [model] member, which does not depend on the
    conversation id, followed by the member [conversation_id] with the
    id when the conversation id of the client is not empty, and by
    nothing but the closing brace when it is empty; so the key is on
    the wire exactly when an id is known, and never with an empty
    string.  The same holds of the encoded object those bytes render. *)
Theorem conversation_id_key_iff_known (c : Conversation) (id message : string) :
  Marshal (outbound c id message)
  = (envelope_head (ParentMessageId c) id message
     ++ (if String.eqb (ConversationId c) EmptyString then "}"
         else json_text ",'conversation_id':"
              ++ JSON.quote (ConversationId c) ++ "}"),
     None)
  /\ (JSON.has_key "conversation_id"
        (ConversationBody_value (outbound c id message)) = true
      <-> ConversationId c <> EmptyString)
  /\ JSON.member "conversation_id"
       (ConversationBody_value (outbound c id message))
     = (if String.eqb (ConversationId c) EmptyString then None
        else Some (JSON.Str (ConversationId c)))
  /\ Marshal (outbound c id message)
     = (JSON.render (ConversationBody_value (outbound c id message)), None).
Proof.
  split.
  - destruct c as [g cid pid]. unfold Marshal, outbound, envelope_head.
    cbn [fst ConversationId ParentMessageId]. f_equal.
    destruct cid as [|a cid].
    + cbn [String.eqb negb]. unfold ConversationBody_value.
      cbn -[JSON.quote append].
      generalize (JSON.quote id), (JSON.quote message), (JSON.quote pid).
      intros qi qm qp. rewrite !append_assoc. vm_compute. reflexivity.
    + cbn [String.eqb negb]. unfold ConversationBody_value.
      cbn -[JSON.quote append].
      generalize (JSON.quote id), (JSON.quote message), (JSON.quote pid),
        (JSON.quote (String a cid)).
      intros qi qm qp qc. rewrite !append_assoc. vm_compute. reflexivity.
  - destruct c as [g cid pid]. unfold outbound, ConversationBody_value.
    rewrite has_key_encode_struct. cbn [ConversationId ParentMessageId].
    destruct cid as [|a cid].
    + split; [|split; reflexivity].
      split; [intros H; discriminate H | intros H; now contradiction H].
    + split; [|split; reflexivity].
      split; [intros _ H; discriminate H | intros _; reflexivity].
Qed.

(** ** The stream parser *)

(** C1, where the code departs from it: on a stream of whole lines
    without the sentinel that ends with [io.EOF] (the empty stream among
    them) the loop does not terminate; after the last line every read
    gives no bytes and [io.EOF], and the round is left by [continue]
    before the test for [io.EOF] is reached. *)
Theorem read_loop_hangs_at_end_of_stream (ls : list line) (fuel : nat)
    (respMessage : string) :
  forallb line_ok ls = true ->
  read_loop fuel (mkReader (stream ls EmptyString) io_EOF) respMessage = None.
Proof.
  intros Hok. now apply read_loop_no_sentinel.
Qed.

Lemma read_loop_hangs_at_end_of_stream_witness :
  read_loop 1000 (mkReader EmptyString io_EOF) EmptyString = None
  /\ read_loop 1000 (mkReader ("data: {}" ++ newline) io_EOF) EmptyString
     = None.
Proof.
  split.
  - apply (read_loop_hangs_at_end_of_stream [] 1000 EmptyString).
    reflexivity.
  - apply (read_loop_hangs_at_end_of_stream [Data "{}"] 1000 EmptyString).
    reflexivity.
Defined.

(** ** Sending *)

Section SendProperties.

Variable US : string -> SessionResult.t -> SessionResult.t * option error.
Variable UC :
  string -> ConversationResult.t -> ConversationResult.t * option error.

(** The linkage after a failed attempt to get a token. *)
Lemma rooted_linkage (c : Conversation) (w : World) :
  ConversationId (rooted c w) = ConversationId c
  /\ ParentMessageId (rooted c w)
     = (if String.eqb (ParentMessageId c) EmptyString
        then fresh w (drawn w) else ParentMessageId c).
Proof.
  unfold rooted.
  destruct (String.eqb (ParentMessageId c) EmptyString); split; reflexivity.
Qed.

(** Every way out of [SendMessage]: an error with the linkage of
    [rooted], or the outcome of [GetMessage] with the linkage of a
    decoded reply. *)
Lemma SendMessage_cases (fuel : nat) (c : Conversation) (message : string)
    (w : World) (out : outcome (string * option error)) (c' : Conversation)
    (w' : World) :
  SendMessage US UC fuel c message w = Some (out, c', w') ->
  (exists err,
      out = fails err
      /\ ConversationId c' = ConversationId (rooted c w)
      /\ ParentMessageId c' = ParentMessageId (rooted c w))
  \/ (exists respMessage result,
        UC respMessage ConversationResult.zero = (result, None)
        /\ out = GetMessage result
        /\ ConversationId c' = ConversationResult.ConversationId result
        /\ ParentMessageId c'
           = ConversationResult.Id (ConversationResult.Message result)).
Proof.
  destruct c as [g cid pid]. unfold SendMessage, rooted.
  cbn [ParentMessageId ChatGPT_ ConversationId].
  assert (Hgen : forall (c1 : Conversation) (w1 : World),
    match RefreshAccessToken US (ChatGPT_ c1) w1 with
    | (err, g1, w2) =>
        match err with
        | Some err1 =>
            Some (fails (Errorf "refresh access token: %w" [ArgW err1]),
                  set_ChatGPT g1 c1, w2)
        | None =>
            let '(id, w3) := NewString w2 in
            let body := outbound (set_ChatGPT g1 c1) id message in
            let '(bodyReader, err2) := Reader_ body in
            match err2 with
            | Some err3 => Some (fails err3, set_ChatGPT g1 c1, w3)
            | None =>
                match
                  NewRequest "POST"
                    "https://chat.openai.com/backend-api/conversation"
                    bodyReader
                with
                | (_, Some err3) => Some (fails err3, set_ChatGPT g1 c1, w3)
                | (req, None) =>
                    let '(resp, w4) :=
                      Do (Timeout (ChatGPT_ (set_ChatGPT g1 c1)))
                        (conversation_headers (set_ChatGPT g1 c1) req) w3 in
                    match resp with
                    | inr err3 => Some (fails err3, set_ChatGPT g1 c1, w4)
                    | inl resp0 =>
                        if negb (StatusCode resp0 =? StatusOK)%Z then
                          let '(body0, _) := ReadAll (Body resp0) in
                          Some (fails
                                  (Errorf "response status code=%d, body=%s"
                                     [ArgD (StatusCode resp0); ArgS body0]),
                                set_ChatGPT g1 c1, w4)
                        else
                          match read_loop fuel (Body resp0) EmptyString with
                          | None => None
                          | Some (inl err3) =>
                              Some (fails err3, set_ChatGPT g1 c1, w4)
                          | Some (inr respMessage) =>
                              let '(result, err3) :=
                                UC respMessage ConversationResult.zero in
                              match err3 with
                              | Some err4 =>
                                  Some (fails err4, set_ChatGPT g1 c1, w4)
                              | None =>
                                  Some (GetMessage result,
                                        set_linkage result (set_ChatGPT g1 c1),
                                        w4)
                              end
                          end
                    end
                end
            end
        end
    end = Some (out, c', w') ->
    (exists err,
        out = fails err
        /\ ConversationId c' = ConversationId c1
        /\ ParentMessageId c' = ParentMessageId c1)
    \/ (exists respMessage result,
          UC respMessage ConversationResult.zero = (result, None)
          /\ out = GetMessage result
          /\ ConversationId c' = ConversationResult.ConversationId result
          /\ ParentMessageId c'
             = ConversationResult.Id (ConversationResult.Message result))).
  { intros c1 w1.
    destruct (RefreshAccessToken US (ChatGPT_ c1) w1) as [[[err1|] g1] w2].
    - intros H. injection H as <- <- <-. left. eexists. repeat split.
    - unfold NewString, Reader_, Marshal, NewRequest, Do.
      cbn [fst snd].
      destruct (remote _ _ _) as [resp0|err3].
      + destruct (negb (StatusCode resp0 =? StatusOK)%Z).
        * unfold ReadAll. intros H. injection H as <- <- <-.
          left. eexists. repeat split.
        * destruct (read_loop fuel (Body resp0) EmptyString)
            as [[err3|respMessage]|]; [| |discriminate].
          -- intros H. injection H as <- <- <-.
             left. eexists. repeat split.
          -- destruct (UC respMessage ConversationResult.zero)
               as [result [err4|]] eqn:Hu.
             ++ intros H. injection H as <- <- <-.
                left. eexists. repeat split.
             ++ intros H. injection H as <- <- <-.
                right. exists respMessage, result. repeat split. exact Hu.
      + intros H. injection H as <- <- <-. left. eexists. repeat split. }
  destruct (String.eqb pid EmptyString).
  - exact (Hgen (set_ParentMessageId (fresh w (drawn w))
                   (mkConversation g cid pid))
                (snd (NewString w))).
  - exact (Hgen (mkConversation g cid pid) w).
Qed.

(** C3, as amended: when [SendMessage] returns the reply text, both
    linkage fields hold the values of the decoded reply and the text is
    its first part; when it returns an error (a failed token refresh and
    a failed decoding among them), [ConversationId] holds the value it
    had before the call, and [ParentMessageId] holds the value it had
    before the call when that was not empty and the identifier generated
    at the start of the call when it was. *)
Theorem SendMessage_linkage (fuel : nat) (c : Conversation) (message : string)
    (w : World) (out : outcome (string * option error)) (c' : Conversation)
    (w' : World) :
  SendMessage US UC fuel c message w = Some (out, c', w') ->
  match out with
  | Returns (text, None) =>
      exists respMessage result,
        UC respMessage ConversationResult.zero = (result, None)
        /\ ConversationId c' = ConversationResult.ConversationId result
        /\ ParentMessageId c'
           = ConversationResult.Id (ConversationResult.Message result)
        /\ hd_error
             (Parts (ConversationResult.Content_
                       (ConversationResult.Message result)))
           = Some text
  | Returns (_, Some _) =>
      ConversationId c' = ConversationId c
      /\ ParentMessageId c'
         = (if String.eqb (ParentMessageId c) EmptyString
            then fresh w (drawn w) else ParentMessageId c)
  | Panics _ => True
  end.
Proof.
  intros H. apply SendMessage_cases in H.
  destruct (rooted_linkage c w) as [Hc Hp].
  destruct H as [(err & -> & H1 & H2) | (respMessage & result & Hu & -> & H1 & H2)].
  - cbn. rewrite H1, H2. now split.
  - unfold GetMessage.
    destruct (Parts (ConversationResult.Content_
                       (ConversationResult.Message result)))
      as [|part parts] eqn:Hparts; [exact I|].
    exists respMessage, result. rewrite Hparts. repeat split; assumption.
Qed.

(** C10: with a cached token, when the posted message is answered with
    200 and a stream whose last captured payload decodes without error
    into a reply with no parts, [SendMessage] returns no error: the
    extraction of the first part panics, after both linkage fields have
    been overwritten from the reply. *)
Theorem SendMessage_empty_parts_panics (fuel : nat) (c : Conversation)
    (message : string) (w : World) (br : Reader) (respMessage : string)
    (result : ConversationResult.t) :
  AccessToken (ChatGPT_ c) <> EmptyString ->
  IsAccessTokenExpired (ChatGPT_ c) w = false ->
  (forall history req,
      Method req = "POST" ->
      remote w history req = inl (mkResponse StatusOK br)) ->
  read_loop fuel br EmptyString = Some (inr respMessage) ->
  UC respMessage ConversationResult.zero = (result, None) ->
  Parts (ConversationResult.Content_ (ConversationResult.Message result)) = [] ->
  exists msg c' w',
    SendMessage US UC fuel c message w = Some (Panics msg, c', w')
    /\ ConversationId c' = ConversationResult.ConversationId result
    /\ ParentMessageId c'
       = ConversationResult.Id (ConversationResult.Message result).
Proof.
  intros Ht He Hr Hloop Hu Hparts.
  destruct (SendMessage_cached US UC fuel c message w br Ht He Hr) as [w' Hs].
  rewrite Hloop, Hu in Hs. unfold GetMessage in Hs. rewrite Hparts in Hs.
  eexists _, _, w'. split; [exact Hs|]. split; reflexivity.
Qed.

(** C2, where the code departs from it: with a cached token and an
    answer of 200 with no bytes, [SendMessage] returns nothing, neither
    a reply nor a decoding error, because the reading loop does not
    terminate on the empty stream. *)
Theorem SendMessage_empty_stream_never_returns (fuel : nat) :
  SendMessage US UC fuel (NewConversation signed_in EmptyString EmptyString)
    "hello" (sample_world 1000%Z unreachable (events EmptyString))
  = None.
Proof.
  destruct (SendMessage_cached US UC fuel
              (NewConversation signed_in EmptyString EmptyString) "hello"
              (sample_world 1000%Z unreachable (events EmptyString))
              (mkReader EmptyString io_EOF)) as [w' Hs].
  - discriminate.
  - reflexivity.
  - intros history req Hm. cbn. unfold service. now rewrite Hm.
  - rewrite Hs. now rewrite read_loop_drained.
Qed.

(** C6: with a cached token, when the posted message is answered with
    200 and a stream whose only [data: ] line before the sentinel
    carries the sample reply, [SendMessage] returns ["Hello!"] and the
    conversation holds [m2] and [c1]. *)
Theorem SendMessage_hello (fuel : nat) (c : Conversation) (message : string)
    (w : World) (blank : nat) (rest : string) (e : error) :
  AccessToken (ChatGPT_ c) <> EmptyString ->
  IsAccessTokenExpired (ChatGPT_ c) w = false ->
  (forall history req,
      Method req = "POST" ->
      remote w history req
      = inl (mkResponse StatusOK
               (mkReader
                  (stream (Data hello_payload :: repeat (Other EmptyString) blank)
                     (sentinel ++ rest))
                  e))) ->
  S blank < fuel ->
  exists c' w',
    SendMessage US Decode.Unmarshal_ConversationResult fuel c message w
    = Some (Returns ("Hello!", None), c', w')
    /\ ParentMessageId c' = "m2"
    /\ ConversationId c' = "c1".
Proof.
  intros Ht He Hr Hfuel.
  destruct (SendMessage_cached US Decode.Unmarshal_ConversationResult fuel c
              message w _ Ht He Hr) as [w' Hs].
  rewrite read_loop_stream in Hs.
  - assert (Hcap : captured
                     (Data hello_payload :: repeat (Other EmptyString) blank)
                     EmptyString = hello_payload).
    { cbn [captured]. clear. induction blank as [|n IH]; [reflexivity|].
      exact IH. }
    rewrite Hcap in Hs.
    eexists _, w'. split; [exact Hs|]. split; reflexivity.
  - cbn [forallb]. apply andb_true_iff. split; [reflexivity|].
    clear. induction blank as [|n IH]; [reflexivity | exact IH].
  - cbn [List.length]. rewrite repeat_length. exact Hfuel.
Qed.

End SendProperties.

(** ** The properties at sample inputs *)

(** A stream whose only line is the sentinel: nothing is captured, the
    empty text is decoded, and the decoding error is returned. *)
Example SendMessage_only_sentinel :
  exists c' w',
    SendMessage Decode.Unmarshal_SessionResult
      Decode.Unmarshal_ConversationResult 1
      (NewConversation signed_in "c0" "m1") "hello"
      (sample_world 1000%Z unreachable (events "data: [DONE]"))
    = Some (fails Decode.syntax_error, c', w')
    /\ ConversationId c' = "c0"
    /\ ParentMessageId c' = "m1".
Proof.
  destruct (SendMessage Decode.Unmarshal_SessionResult
              Decode.Unmarshal_ConversationResult 1
              (NewConversation signed_in "c0" "m1") "hello"
              (sample_world 1000%Z unreachable (events "data: [DONE]")))
    as [[[out c'] w']|] eqn:E; vm_compute in E; [|discriminate E].
  injection E as <- <- <-. eexists _, _. repeat split.
Qed.

(** C3 as first stated does not hold: a first send whose token refresh
    fails returns an error, and [ParentMessageId], empty before the
    call, holds a generated identifier after it. *)
Lemma refresh_failure_changes_ParentMessageId :
  exists err c' w',
    SendMessage Decode.Unmarshal_SessionResult
      Decode.Unmarshal_ConversationResult 1
      (NewConversation signed_out EmptyString EmptyString) "hello"
      (sample_world 1000%Z unreachable unreachable)
    = Some (Returns (EmptyString, Some err), c', w')
    /\ ParentMessageId (NewConversation signed_out EmptyString EmptyString)
       = EmptyString
    /\ ParentMessageId c' = "6fa459ea-ee8a-4ca4-894e-000000000000".
Proof.
  destruct (SendMessage Decode.Unmarshal_SessionResult
              Decode.Unmarshal_ConversationResult 1
              (NewConversation signed_out EmptyString EmptyString) "hello"
              (sample_world 1000%Z unreachable unreachable))
    as [[[out c'] w']|] eqn:E; vm_compute in E; [|discriminate E].
  injection E as <- <- <-. eexists _, _, _. repeat split.
Qed.

Lemma SendMessage_linkage_witness :
  match
    SendMessage Decode.Unmarshal_SessionResult
      Decode.Unmarshal_ConversationResult 1
      (NewConversation signed_in "c0" "m1") "hello"
      (sample_world 1000%Z unreachable (events "data: [DONE]"))
  with
  | Some (Returns (_, Some _), c', _) =>
      ConversationId c' = "c0" /\ ParentMessageId c' = "m1"
  | _ => False
  end.
Proof.
  pose proof (SendMessage_linkage Decode.Unmarshal_SessionResult
                Decode.Unmarshal_ConversationResult 1
                (NewConversation signed_in "c0" "m1") "hello"
                (sample_world 1000%Z unreachable (events "data: [DONE]")))
    as H.
  destruct (SendMessage Decode.Unmarshal_SessionResult
              Decode.Unmarshal_ConversationResult 1
              (NewConversation signed_in "c0" "m1") "hello"
              (sample_world 1000%Z unreachable (events "data: [DONE]")))
    as [[[out c'] w']|] eqn:E; [|vm_compute in E; discriminate E].
  specialize (H out c' w' eq_refl).
  vm_compute in E. injection E as <- <- <-. exact H.
Defined.

Lemma SendMessage_hello_witness :
  exists c' w',
    SendMessage Decode.Unmarshal_SessionResult
      Decode.Unmarshal_ConversationResult 3
      (NewConversation signed_in EmptyString EmptyString) "Hi"
      (sample_world 1000%Z unreachable
         (events
            (stream (Data hello_payload :: repeat (Other EmptyString) 1)
               (sentinel ++ EmptyString))))
    = Some (Returns ("Hello!", None), c', w')
    /\ ParentMessageId c' = "m2"
    /\ ConversationId c' = "c1".
Proof.
  apply (SendMessage_hello Decode.Unmarshal_SessionResult 3
           (NewConversation signed_in EmptyString EmptyString) "Hi"
           (sample_world 1000%Z unreachable
              (events
                 (stream (Data hello_payload :: repeat (Other EmptyString) 1)
                    (sentinel ++ EmptyString))))
           1 EmptyString io_EOF).
  - discriminate.
  - reflexivity.
  - intros history req Hm. cbn [remote sample_world]. unfold service.
    rewrite Hm. reflexivity.
  - lia.
Defined.

Lemma SendMessage_empty_parts_panics_witness :
  exists msg c' w',
    SendMessage Decode.Unmarshal_SessionResult
      Decode.Unmarshal_ConversationResult 2
      (NewConversation signed_in "c1" "m2") "Hi"
      (sample_world 1000%Z unreachable
         (events (stream [Data no_parts_payload] sentinel)))
    = Some (Panics msg, c', w')
    /\ ConversationId c' = "c1"
    /\ ParentMessageId c' = "m3".
Proof.
  apply (SendMessage_empty_parts_panics Decode.Unmarshal_SessionResult
           Decode.Unmarshal_ConversationResult 2
           (NewConversation signed_in "c1" "m2") "Hi"
           (sample_world 1000%Z unreachable
              (events (stream [Data no_parts_payload] sentinel)))
           (mkReader (stream [Data no_parts_payload] sentinel) io_EOF)
           no_parts_payload
           (fst (Decode.Unmarshal_ConversationResult no_parts_payload
                   ConversationResult.zero))).
  - discriminate.
  - reflexivity.
  - intros history req Hm. cbn [remote sample_world]. unfold service.
    rewrite Hm. reflexivity.
  - reflexivity.
  - reflexivity.
  - reflexivity.
Defined.
Lemma length_append (a b : string) :
  String.length (a ++ b) = String.length a + String.length b.
Proof. induction a as [|x a IH]; simpl; [reflexivity | now rewrite IH]. Qed.

(** * Further properties *)

(** ** The reading loop, line by line *)

Lemma has_delim_cons (a : ascii) (s : string) :
  has_delim (String a s) = false ->
  CutPrefix (String a s) delim = None /\ has_delim s = false.
Proof.
  unfold has_delim. cbn [Cut].
  destruct (CutPrefix (String a s) delim); [discriminate|].
  destruct (Cut s delim) as [[b r]|]; [discriminate|].
  intros _. split; reflexivity.
Qed.

(** The first separator of [name ++ ": " ++ rest] is the one written
    out, when [name] holds none. *)
Lemma Cut_first (name rest : string) :
  has_delim name = false ->
  Cut (name ++ delim ++ rest) delim = Some (name, rest).
Proof.
  induction name as [|a name IH]; intros H.
  - reflexivity.
  - apply has_delim_cons in H as [Hp Hn].
    change (String a name ++ delim ++ rest)
      with (String a (name ++ delim ++ rest)).
    cbn [Cut]. rewrite (IH Hn).
    replace (CutPrefix (String a (name ++ delim ++ rest)) delim)
      with (@None string); [reflexivity|].
    unfold delim in *. cbn [CutPrefix] in *.
    destruct (Ascii.eqb a ":"); [|reflexivity].
    destruct name as [|b name]; [reflexivity|].
    cbn [append CutPrefix] in *.
    destruct (Ascii.eqb b " "); [discriminate Hp | reflexivity].
Qed.


(** X1: a line with the separator is split at its first [": "],
    whatever stands before it (a field name other than [data], or
    nothing at all): the text after it, without the line feed, becomes
    the candidate, and ends the loop when it is the sentinel text. *)
Theorem loop_body_takes_text_after_first_separator (name value : string)
    (respMessage : string) :
  has_delim name = false ->
  has_byte LF name = false ->
  has_byte LF value = false ->
  loop_body (name ++ delim ++ value ++ newline) None respMessage
  = if String.eqb value "[DONE]" then Break respMessage else Continue value.
Proof.
  intros Hd Hn Hv. unfold loop_body. cbn [failed].
  assert (Hlen : (String.length (name ++ delim ++ value ++ newline) <? 2)%nat
                 = false).
  { apply Nat.ltb_ge. rewrite !length_append. cbn. lia. }
  rewrite Hlen. cbn [SplitN].
  rewrite (Cut_first name (value ++ newline) Hd).
  cbn [List.length Nat.ltb Nat.leb nth at_EOF orb].
  now rewrite (TrimSuffix_newline _ Hv).
Qed.

Lemma loop_body_takes_text_after_first_separator_witness :
  loop_body (": keep-alive" ++ newline) None "{1}" = Continue "keep-alive"
  /\ loop_body ("event: [DONE]" ++ newline) None "{1}" = Break "{1}".
Proof.
  split.
  - apply (loop_body_takes_text_after_first_separator EmptyString "keep-alive"
             "{1}"); reflexivity.
  - apply (loop_body_takes_text_after_first_separator "event" "[DONE]" "{1}");
      reflexivity.
Defined.

Lemma ReadBytes_rest (s : string) (e : error) :
  has_byte LF s = false ->
  ReadBytes (mkReader s e) LF = ((s, Some e), mkReader EmptyString e).
Proof.
  intros H. unfold ReadBytes. cbn [pending ending].
  now rewrite (cutAfter_none _ H).
Qed.

(** More rounds do not change what the loop has given. *)
Lemma read_loop_more_fuel (fuel extra : nat) (br : Reader)
    (respMessage : string) (r : error + string) :
  read_loop fuel br respMessage = Some r ->
  read_loop (fuel + extra) br respMessage = Some r.
Proof.
  revert br respMessage.
  induction fuel as [|fuel IH]; intros br respMessage H; [discriminate H|].
  cbn [read_loop Nat.add] in *.
  destruct (ReadBytes br LF) as [[bs err] br'].
  destruct (loop_body bs err respMessage); [now apply IH | exact H | exact H].
Qed.

(** At the end of input, a last chunk of fewer than two bytes or
    without the separator is passed over, and the loop goes round on
    the empty reads that follow. *)
Lemma read_loop_short_chunk (ls : list line) (chunk : string) :
  forallb line_ok ls = true ->
  has_byte LF chunk = false ->
  String.length chunk < 2 \/ has_delim chunk = false ->
  forall (fuel : nat) (respMessage : string),
    read_loop fuel (mkReader (stream ls chunk) io_EOF) respMessage = None.
Proof.
  intros Hok Hlf Hc.
  induction ls as [|l ls IH]; intros fuel respMessage.
  - destruct fuel as [|fuel]; [reflexivity|].
    cbn [stream read_loop]. rewrite (ReadBytes_rest _ _ Hlf).
    rewrite (loop_body_skip chunk (Some io_EOF) respMessage eq_refl Hc).
    apply read_loop_drained.
  - cbn [forallb] in Hok. apply andb_true_iff in Hok as [Hl Hls].
    destruct fuel as [|fuel]; [reflexivity|].
    cbn [stream]. rewrite (read_loop_wire _ _ _ _ _ Hl).
    apply (IH Hls).
Qed.

(** X2: on a stream of well-formed lines without the sentinel that ends
    with [io.EOF], the loop terminates exactly when the bytes after the
    last line feed are two or more and hold the separator; it then
    leaves with the payload of the last whole [data: ] line, and what
    the unfinished last line carries is not captured. *)
Theorem read_loop_at_EOF (ls : list line) (chunk : string)
    (respMessage : string) :
  forallb line_ok ls = true ->
  has_byte LF chunk = false ->
  ((exists fuel r,
       read_loop fuel (mkReader (stream ls chunk) io_EOF) respMessage = Some r)
   <-> 2 <= String.length chunk /\ has_delim chunk = true)
  /\ (forall fuel r,
        read_loop fuel (mkReader (stream ls chunk) io_EOF) respMessage = Some r ->
        r = inr (last (payloads ls) respMessage)).
Proof.
  intros Hok Hlf.
  assert (Hback : 2 <= String.length chunk /\ has_delim chunk = true ->
                  forall fuel, List.length ls < fuel ->
                  read_loop fuel (mkReader (stream ls chunk) io_EOF) respMessage
                  = Some (inr (last (payloads ls) respMessage))).
  { intros [Hlen Hd] fuel Hfuel. rewrite <- captured_last.
    now apply read_loop_last_chunk. }
  assert (Hforth : forall fuel r,
             read_loop fuel (mkReader (stream ls chunk) io_EOF) respMessage
             = Some r ->
             2 <= String.length chunk /\ has_delim chunk = true).
  { intros fuel r H.
    destruct (Nat.ltb_spec (String.length chunk) 2) as [Hlen|Hlen].
    - rewrite (read_loop_short_chunk ls chunk Hok Hlf (or_introl Hlen)) in H.
      discriminate H.
    - destruct (has_delim chunk) eqn:Hd; [now split|].
      rewrite (read_loop_short_chunk ls chunk Hok Hlf (or_intror Hd)) in H.
      discriminate H. }
  split.
  - split.
    + intros (fuel & r & H). exact (Hforth fuel r H).
    + intros H. exists (S (List.length ls)). eexists.
      apply (Hback H). lia.
  - intros fuel r H.
    pose proof (read_loop_more_fuel fuel (S (List.length ls)) _ _ _ H) as Hm.
    rewrite (Hback (Hforth fuel r H)) in Hm by lia.
    now injection Hm as <-.
Qed.

Lemma read_loop_at_EOF_witness :
  read_loop 2 (mkReader (stream [Data "{1}"] "data: {2}") io_EOF) EmptyString
  = Some (inr "{1}").
Proof.
  destruct (read_loop_at_EOF [Data "{1}"] "data: {2}" EmptyString eq_refl eq_refl)
    as [[_ Hex] Hval].
  assert (Hlen : 2 <= String.length "data: {2}") by (cbn; lia).
  destruct (Hex (conj Hlen eq_refl)) as (fuel & r & H).
  rewrite (Hval fuel r H) in H.
  destruct (read_loop 2 (mkReader (stream [Data "{1}"] "data: {2}") io_EOF)
              EmptyString) as [r'|] eqn:E.
  - now rewrite (Hval 2 r' E).
  - vm_compute in E. discriminate E.
Defined.

(** X3: when the stream breaks off with an error other than [io.EOF],
    the lines before the break are read, then the function returns that
    error: the candidate captured so far is given up, and so is what the
    broken last line holds, a sentinel included. *)
Theorem read_loop_returns_read_error (ls : list line) (chunk : string)
    (e : error) (fuel : nat) (respMessage : string) :
  forallb line_ok ls = true ->
  has_byte LF chunk = false ->
  is_EOF e = false ->
  List.length ls < fuel ->
  read_loop fuel (mkReader (stream ls chunk) e) respMessage = Some (inl e).
Proof.
  intros Hok Hlf He. revert fuel respMessage.
  induction ls as [|l ls IH]; intros fuel respMessage Hfuel.
  - destruct fuel as [|fuel]; [inversion Hfuel|].
    cbn [stream read_loop]. rewrite (ReadBytes_rest _ _ Hlf).
    unfold loop_body. cbn [failed]. now rewrite He.
  - cbn [forallb] in Hok. apply andb_true_iff in Hok as [Hl Hls].
    destruct fuel as [|fuel]; [inversion Hfuel|].
    cbn [stream List.length] in *.
    rewrite (read_loop_wire _ _ _ _ _ Hl).
    apply (IH Hls). lia.
Qed.

Lemma read_loop_returns_read_error_witness :
  read_loop 2
    (mkReader (stream [Data "{1}"] "data: [DONE]")
       (Opaque "unexpected EOF"))
    EmptyString
  = Some (inl (Opaque "unexpected EOF")).
Proof.
  apply (read_loop_returns_read_error [Data "{1}"] "data: [DONE]"
           (Opaque "unexpected EOF") 2 EmptyString); try reflexivity.
  apply le_n.
Defined.

(** ** The token, call after call *)

Section RefreshProperties.

Variable US : string -> SessionResult.t -> SessionResult.t * option error.

(** The world after the session request. *)
Lemma refresh_world (c : ChatGPT) (w : World) :
  snd (RefreshAccessToken US c w)
  = if String.eqb (AccessToken c) EmptyString || IsAccessTokenExpired c w
    then mkWorld (now w) (fresh w) (drawn w) (remote w)
           (sent w ++ [session_request c])
    else w.
Proof.
  unfold RefreshAccessToken.
  destruct (String.eqb (AccessToken c) EmptyString || IsAccessTokenExpired c w);
    [|reflexivity].
  unfold NewRequest, Do. cbn [fst snd].
  destruct (remote w (sent w) _) as [resp|err]; [|reflexivity].
  unfold ReadAll.
  destruct (is_EOF (ending (Body resp))); [|reflexivity].
  destruct (negb (StatusCode resp =? StatusOK)%Z); [reflexivity|].
  destruct (US (pending (Body resp)) SessionResult.zero) as [r [e|]];
    [reflexivity|].
  destruct (String.eqb (SessionResult.AccessToken r) EmptyString);
    [reflexivity|].
  destruct (negb (String.eqb (SessionResult.Error r) EmptyString));
    reflexivity.
Qed.

(** Every way out of [RefreshAccessToken]: the cached token is used; or
    the request fails at some stage and the client is as before; or the
    reply is taken over. *)
Lemma refresh_cases (c : ChatGPT) (w : World) (err : option error)
    (c' : ChatGPT) (w' : World) :
  RefreshAccessToken US c w = (err, c', w') ->
  (AccessToken c <> EmptyString /\ IsAccessTokenExpired c w = false
   /\ err = None /\ c' = c /\ w' = w)
  \/ (err <> None /\ c' = c)
  \/ (exists resp r,
        remote w (sent w) (session_request c) = inl resp
        /\ StatusCode resp = StatusOK
        /\ is_EOF (ending (Body resp)) = true
        /\ US (pending (Body resp)) SessionResult.zero = (r, None)
        /\ SessionResult.AccessToken r <> EmptyString
        /\ SessionResult.Error r = EmptyString
        /\ err = None
        /\ c' = mkChatGPT (SessionToken c) (ClearanceToken c)
                  (SessionResult.AccessToken r) (SessionResult.Expires r)
                  (Log c) (Timeout c) (UserAgent c)).
Proof.
  unfold RefreshAccessToken.
  destruct (String.eqb_spec (AccessToken c) EmptyString) as [Ht|Ht];
    cbn [orb].
  2: destruct (IsAccessTokenExpired c w) eqn:He.
  3: { intros H. injection H as <- <- <-. left. repeat split. exact Ht. }
  all: unfold NewRequest, Do; cbn [fst snd];
    destruct (remote w (sent w) _) as [resp|e0] eqn:Hr;
    [|intros H; injection H as <- <- <-; right; left; split;
      [discriminate | reflexivity]];
    unfold ReadAll;
    destruct (is_EOF (ending (Body resp))) eqn:Hend;
    [|intros H; injection H as <- <- <-; right; left; split;
      [discriminate | reflexivity]];
    destruct (Z.eqb_spec (StatusCode resp) StatusOK) as [Hs|Hs]; cbn [negb];
    [|intros H; injection H as <- <- <-; right; left; split;
      [discriminate | reflexivity]];
    destruct (US (pending (Body resp)) SessionResult.zero) as [r [e1|]] eqn:Hu;
    [intros H; injection H as <- <- <-; right; left; split;
      [discriminate | reflexivity]|];
    destruct (String.eqb_spec (SessionResult.AccessToken r) EmptyString)
      as [Ha|Ha];
    [intros H; injection H as <- <- <-; right; left; split;
      [discriminate | reflexivity]|];
    destruct (String.eqb_spec (SessionResult.Error r) EmptyString)
      as [Hx|Hx]; cbn [negb];
    [|intros H; injection H as <- <- <-; right; left; split;
      [discriminate | reflexivity]];
    intros H; injection H as <- <- <-; right; right;
    exists resp, r; repeat split; try assumption; exact Hr.
Qed.


Lemma refresh_credentials (c : ChatGPT) (w : World) :
  let '(_, c', _) := RefreshAccessToken US c w in
  SessionToken c' = SessionToken c
  /\ ClearanceToken c' = ClearanceToken c
  /\ UserAgent c' = UserAgent c
  /\ Timeout c' = Timeout c
  /\ Log c' = Log c.
Proof.
  destruct (RefreshAccessToken US c w) as [[err c'] w'] eqn:H.
  apply refresh_cases in H.
  destruct H as [(_ & _ & _ & -> & _) | [(_ & ->) | (resp & r & H)]].
  - repeat split.
  - repeat split.
  - destruct H as (_ & _ & _ & _ & _ & _ & _ & ->). repeat split.
Qed.

(** X4: whatever [RefreshAccessToken] does, the credentials, the user
    agent, the timeout and the logger of the client stay as they were;
    when it returns an error, the cached token and its expiry stay as
    they were too. *)
Theorem RefreshAccessToken_keeps_credentials (c : ChatGPT) (w : World) :
  let '(err, c', _) := RefreshAccessToken US c w in
  SessionToken c' = SessionToken c
  /\ ClearanceToken c' = ClearanceToken c
  /\ UserAgent c' = UserAgent c
  /\ Timeout c' = Timeout c
  /\ Log c' = Log c
  /\ (err <> None -> c' = c).
Proof.
  destruct (RefreshAccessToken US c w) as [[err c'] w'] eqn:H.
  apply refresh_cases in H.
  destruct H as [(_ & _ & -> & -> & _) | [(_ & ->) | (resp & r & H)]].
  - repeat split.
  - repeat split.
  - destruct H as (_ & _ & _ & _ & _ & _ & -> & ->).
    repeat split. intros H. now contradiction H.
Qed.

(** X5: when [RefreshAccessToken] returns no error, the client holds a
    non-empty token; and when a request was made for it, the token and
    the expiry are the ones decoded from a reply of status 200 whose
    error text is empty. *)
Theorem RefreshAccessToken_success (c c' : ChatGPT) (w w' : World) :
  RefreshAccessToken US c w = (None, c', w') ->
  AccessToken c' <> EmptyString
  /\ (sent w' <> sent w ->
      exists resp r,
        remote w (sent w) (session_request c) = inl resp
        /\ StatusCode resp = StatusOK
        /\ US (pending (Body resp)) SessionResult.zero = (r, None)
        /\ SessionResult.Error r = EmptyString
        /\ AccessToken c' = SessionResult.AccessToken r
        /\ AccessTokenExpires c' = SessionResult.Expires r).
Proof.
  intros H. pose proof (f_equal snd H) as Hw. cbn [snd] in Hw.
  apply refresh_cases in H.
  destruct H as [(Ht & _ & _ & -> & ->) | [(He & _) | (resp & r & H)]].
  - split; [exact Ht|]. intros Hs. now contradiction Hs.
  - now contradiction He.
  - destruct H as (Hr & Hs & _ & Hu & Ha & Hx & _ & ->).
    split; [exact Ha|]. intros _. exists resp, r. repeat split; assumption.
Qed.

(** X6: after a call that returned no error, the next call makes a
    request exactly when the token now cached is already expired at
    that time; when it is not, the next call changes nothing. *)
Theorem RefreshAccessToken_again (c c' : ChatGPT) (w w' : World) :
  RefreshAccessToken US c w = (None, c', w') ->
  (sent (snd (RefreshAccessToken US c' w')) <> sent w'
   <-> IsAccessTokenExpired c' w' = true)
  /\ (IsAccessTokenExpired c' w' = false ->
      RefreshAccessToken US c' w' = (None, c', w')).
Proof.
  intros H.
  assert (Ht : AccessToken c' <> EmptyString).
  { apply refresh_cases in H.
    destruct H as [(Ht & _ & _ & -> & _) | [(He & _) | (resp & r & H)]].
    - exact Ht.
    - now contradiction He.
    - destruct H as (_ & _ & _ & _ & Ha & _ & _ & ->). exact Ha. }
  split.
  - rewrite refresh_world.
    destruct (String.eqb_spec (AccessToken c') EmptyString) as [E|_];
      [contradiction|].
    cbn [orb]. destruct (IsAccessTokenExpired c' w'); cbn [sent].
    + split; [reflexivity | intros _; apply app_one_neq].
    + split; [intros Hs; now contradiction Hs | discriminate].
  - intros He. now apply refresh_cached.
Qed.

(** X7: the first [RefreshAccessToken] of a client made by [NewChatGPT]
    always makes one request, whatever the clock shows: a GET to the
    session endpoint without a body, with the timeout chosen at
    construction, whose cookie carries the clearance token and the
    session token given at construction. *)
Theorem NewChatGPT_then_RefreshAccessToken (options : ChatGPTOptions.t)
    (c : ChatGPT) (w : World) :
  NewChatGPT options = (Some c, None) ->
  exists req,
    sent (snd (RefreshAccessToken US c w)) = (sent w ++ [req])%list
    /\ Method req = "GET"
    /\ URL req = "https://chat.openai.com/api/auth/session"
    /\ Payload req = None
    /\ Deadline req = match ChatGPTOptions.Timeout options with
                      | Some timeout => timeout
                      | None => (10 * 1000000000)%Z
                      end
    /\ Header req
       = [("cookie",
           "cf_clearance=" ++ ChatGPTOptions.ClearanceToken options
           ++ "; __Secure-next-auth.session-token="
           ++ ChatGPTOptions.SessionToken options);
          ("user-agent", ChatGPTOptions.UserAgent options);
          ("x-openai-assistant-app-id", EmptyString);
          ("accept-language", "en-US,en;q=0.9");
          ("origin", "https://chat.openai.com");
          ("referer", "https://chat.openai.com/chat")].
Proof.
  intros H. exists (session_request c). rewrite refresh_world.
  destruct options as [st ct ua lg tm]. unfold NewChatGPT in H.
  cbn [ChatGPTOptions.SessionToken ChatGPTOptions.ClearanceToken
       ChatGPTOptions.UserAgent ChatGPTOptions.Log ChatGPTOptions.Timeout]
    in *.
  destruct (String.eqb st EmptyString || String.eqb ct EmptyString
            || String.eqb ua EmptyString); [discriminate H|].
  destruct tm as [t|]; injection H as <-; cbn [AccessToken String.eqb orb];
    repeat split.
Qed.

End RefreshProperties.

Lemma RefreshAccessToken_success_witness :
  AccessToken
    (snd (fst (RefreshAccessToken Decode.Unmarshal_SessionResult signed_out
                 (sample_world 1000%Z (answers 200 session_payload)
                    unreachable))))
  <> EmptyString.
Proof.
  destruct (RefreshAccessToken Decode.Unmarshal_SessionResult signed_out
              (sample_world 1000%Z (answers 200 session_payload) unreachable))
    as [[err c'] w'] eqn:E.
  assert (Herr : err = None).
  { vm_compute in E. now injection E as <- _ _. }
  subst err.
  exact (proj1 (RefreshAccessToken_success Decode.Unmarshal_SessionResult
                  _ _ _ _ E)).
Defined.

Lemma RefreshAccessToken_again_witness :
  RefreshAccessToken Decode.Unmarshal_SessionResult
    (mkChatGPT "session" "clearance" "fresh-token" session_expiry None
       (Second * 10)%Z "agent")
    (mkWorld 1000%Z sample_ids 0
       (service (answers 200 session_payload) unreachable)
       [session_request signed_out])
  = (None,
     mkChatGPT "session" "clearance" "fresh-token" session_expiry None
       (Second * 10)%Z "agent",
     mkWorld 1000%Z sample_ids 0
       (service (answers 200 session_payload) unreachable)
       [session_request signed_out]).
Proof.
  apply (proj2 (RefreshAccessToken_again Decode.Unmarshal_SessionResult
                  signed_out _
                  (sample_world 1000%Z (answers 200 session_payload)
                     unreachable) _ ltac:(vm_compute; reflexivity))).
  reflexivity.
Defined.

Lemma NewChatGPT_then_RefreshAccessToken_witness :
  exists req,
    sent (snd (RefreshAccessToken Decode.Unmarshal_SessionResult signed_out
                 (sample_world 5000%Z unreachable unreachable)))
    = [req]
    /\ Method req = "GET"
    /\ Deadline req = 10000000000%Z.
Proof.
  destruct (NewChatGPT_then_RefreshAccessToken Decode.Unmarshal_SessionResult
              (ChatGPTOptions.mk "session" "clearance" "agent" None None)
              signed_out (sample_world 5000%Z unreachable unreachable)
              eq_refl)
    as (req & Hs & Hm & _ & _ & Hd & _).
  exists req. repeat split; assumption.
Defined.

(** ** Sending, request by request *)

Section SendingProperties.

Variable US : string -> SessionResult.t -> SessionResult.t * option error.
Variable UC :
  string -> ConversationResult.t -> ConversationResult.t * option error.

(** With a cached token, a send is one request and what is made of its
    answer. *)
Lemma SendMessage_cached_run (fuel : nat) (c : Conversation) (message : string)
    (w : World) :
  AccessToken (ChatGPT_ c) <> EmptyString ->
  IsAccessTokenExpired (ChatGPT_ c) w = false ->
  SendMessage US UC fuel c message w
  = match remote w (sent w) (conversation_request c message w) with
    | inr err => Some (fails err, rooted c w, after_post c message w)
    | inl resp =>
        if negb (StatusCode resp =? StatusOK)%Z then
          Some (fails (Errorf "response status code=%d, body=%s"
                         [ArgD (StatusCode resp); ArgS (pending (Body resp))]),
                rooted c w, after_post c message w)
        else
          match read_loop fuel (Body resp) EmptyString with
          | None => None
          | Some (inl err) =>
              Some (fails err, rooted c w, after_post c message w)
          | Some (inr respMessage) =>
              match UC respMessage ConversationResult.zero with
              | (_, Some err) =>
                  Some (fails err, rooted c w, after_post c message w)
              | (result, None) =>
                  Some (GetMessage result, set_linkage result (rooted c w),
                        after_post c message w)
              end
          end
    end.
Proof.
  intros Ht He. destruct c as [g cid pid].
  unfold SendMessage, after_post.
  unfold conversation_request, rooted, root_world.
  cbn [ParentMessageId ChatGPT_ ConversationId] in *.
  destruct (String.eqb pid EmptyString).
  - cbn [NewString set_ParentMessageId ChatGPT_ ConversationId ParentMessageId
         fst snd].
    rewrite refresh_cached by assumption.
    unfold Reader_, Marshal, NewRequest, Do, ReadAll.
    cbn [remote sent fst snd now fresh drawn ChatGPT_ set_ChatGPT].
    reflexivity.
  - rewrite refresh_cached by assumption.
    unfold Reader_, Marshal, NewRequest, Do, NewString, ReadAll.
    cbn [remote sent fst snd now fresh drawn ChatGPT_ set_ChatGPT].
    reflexivity.
Qed.

(** X8: when the token refresh fails, [SendMessage] returns that error
    wrapped, for any number of rounds granted to the loop: no message
    identifier is drawn and no request is made beyond the session
    request of the refresh, so the message is not posted. *)
Theorem SendMessage_refresh_failure (fuel : nat) (c : Conversation)
    (message : string) (w : World) (e : error) (g : ChatGPT) (w2 : World) :
  RefreshAccessToken US (ChatGPT_ c) (root_world c w) = (Some e, g, w2) ->
  SendMessage US UC fuel c message w
  = Some (fails (Errorf "refresh access token: %w" [ArgW e]), rooted c w, w2)
  /\ sent w2 = (sent w ++ [session_request (ChatGPT_ c)])%list
  /\ drawn w2 = drawn (root_world c w).
Proof.
  intros H.
  assert (Hg : g = ChatGPT_ c).
  { apply refresh_cases in H.
    destruct H as [(_ & _ & Hn & _) | [(_ & Hg) | (resp & r & H)]].
    - discriminate Hn.
    - exact Hg.
    - destruct H as (_ & _ & _ & _ & _ & _ & Hn & _). discriminate Hn. }
  subst g.
  assert (Hw : w2 = mkWorld (now (root_world c w)) (fresh (root_world c w))
                      (drawn (root_world c w)) (remote (root_world c w))
                      (sent (root_world c w) ++ [session_request (ChatGPT_ c)])).
  { pose proof (refresh_world US (ChatGPT_ c) (root_world c w)) as Hs.
    rewrite H in Hs. cbn [snd] in Hs.
    destruct (String.eqb (AccessToken (ChatGPT_ c)) EmptyString
              || IsAccessTokenExpired (ChatGPT_ c) (root_world c w)) eqn:Hguard;
      [exact Hs|].
    unfold RefreshAccessToken in H. rewrite Hguard in H. discriminate H. }
  split; [|split].
  - destruct c as [g cid pid]. unfold SendMessage, rooted, root_world in *.
    cbn [ParentMessageId ChatGPT_ ConversationId] in *.
    destruct (String.eqb pid EmptyString).
    + cbn [NewString set_ParentMessageId ChatGPT_ snd] in *.
      rewrite H. reflexivity.
    + cbv beta iota zeta. cbn [ChatGPT_]. rewrite H. reflexivity.
  - rewrite Hw. cbn [sent]. unfold root_world.
    destruct (String.eqb (ParentMessageId c) EmptyString); reflexivity.
  - rewrite Hw. reflexivity.
Qed.

(** X9: with a cached token, a call that returns has made exactly one
    request, after those made before: a POST to the conversation
    endpoint with the client's timeout, the cached token as
    authorization and a cookie of the clearance token alone, whose body
    is the serialized envelope with a newly drawn message identifier.
    The call has drawn one identifier, or two when the conversation had
    no parent message yet. *)
Theorem SendMessage_posts_once (fuel : nat) (c : Conversation)
    (message : string) (w : World) (out : outcome (string * option error))
    (c' : Conversation) (w' : World) :
  AccessToken (ChatGPT_ c) <> EmptyString ->
  IsAccessTokenExpired (ChatGPT_ c) w = false ->
  SendMessage US UC fuel c message w = Some (out, c', w') ->
  exists req,
    sent w' = (sent w ++ [req])%list
    /\ Method req = "POST"
    /\ URL req = "https://chat.openai.com/backend-api/conversation"
    /\ Deadline req = Timeout (ChatGPT_ c)
    /\ Payload req
       = Some (ConversationBody_JSON
                 (outbound (rooted c w)
                    (fresh w
                       (if String.eqb (ParentMessageId c) EmptyString
                        then S (drawn w) else drawn w))
                    message))
    /\ Header req
       = [("authorization", AccessToken (ChatGPT_ c));
          ("content-type", "application/json");
          ("user-agent", UserAgent (ChatGPT_ c));
          ("accept", "text/event-stream");
          ("cookie", "cf_clearance=" ++ ClearanceToken (ChatGPT_ c));
          ("x-openai-assistant-app-id", EmptyString);
          ("accept-language", "en-US,en;q=0.9");
          ("origin", "https://chat.openai.com");
          ("referer", "https://chat.openai.com/chat")]
    /\ drawn w'
       = (if String.eqb (ParentMessageId c) EmptyString
          then S (S (drawn w)) else S (drawn w)).
Proof.
  intros Ht He H. rewrite (SendMessage_cached_run fuel c message w Ht He) in H.
  assert (Hw : w' = after_post c message w).
  { destruct (remote w (sent w) (conversation_request c message w))
      as [resp|err]; [|now injection H as _ _ <-].
    destruct (negb (StatusCode resp =? StatusOK)%Z);
      [now injection H as _ _ <-|].
    destruct (read_loop fuel (Body resp) EmptyString)
      as [[err|respMessage]|]; [now injection H as _ _ <- | | discriminate H].
    destruct (UC respMessage ConversationResult.zero) as [result [err|]];
      now injection H as _ _ <-. }
  subst w'. exists (conversation_request c message w).
  destruct c as [g cid pid].
  unfold after_post. unfold conversation_request, rooted, root_world.
  cbn [ParentMessageId ChatGPT_ ConversationId].
  destruct (String.eqb pid EmptyString); repeat split.
Qed.


(** X10: with a cached token, an answer whose status is not 200 is not
    read line by line: for any number of rounds granted to the loop the
    call returns an error that carries the status and all the bytes of
    the body, an error met while reading those bytes being dropped, and
    the conversation id stays as it was. *)
Theorem SendMessage_status_not_OK (fuel : nat) (c : Conversation)
    (message : string) (w : World) (resp : Response) :
  AccessToken (ChatGPT_ c) <> EmptyString ->
  IsAccessTokenExpired (ChatGPT_ c) w = false ->
  remote w (sent w) (conversation_request c message w) = inl resp ->
  StatusCode resp <> StatusOK ->
  SendMessage US UC fuel c message w
  = Some (fails (Errorf "response status code=%d, body=%s"
                   [ArgD (StatusCode resp); ArgS (pending (Body resp))]),
          rooted c w, after_post c message w)
  /\ ConversationId (rooted c w) = ConversationId c.
Proof.
  intros Ht He Hr Hs.
  rewrite (SendMessage_cached_run fuel c message w Ht He), Hr.
  destruct (Z.eqb_spec (StatusCode resp) StatusOK) as [E|_];
    [contradiction|].
  split; [reflexivity|]. unfold rooted.
  destruct (String.eqb (ParentMessageId c) EmptyString); reflexivity.
Qed.

(** X11: with a cached token and an answer of status 200, when the last
    captured payload decodes without error into a reply with at least
    one part, [SendMessage] returns the first part and no error, and
    takes both linkage fields from the reply: the further parts and the
    error field of the reply play no role. *)
Theorem SendMessage_returns_first_part (fuel : nat) (c : Conversation)
    (message : string) (w : World) (resp : Response) (respMessage : string)
    (result : ConversationResult.t) (part : string) (more : list string) :
  AccessToken (ChatGPT_ c) <> EmptyString ->
  IsAccessTokenExpired (ChatGPT_ c) w = false ->
  remote w (sent w) (conversation_request c message w) = inl resp ->
  StatusCode resp = StatusOK ->
  read_loop fuel (Body resp) EmptyString = Some (inr respMessage) ->
  UC respMessage ConversationResult.zero = (result, None) ->
  Parts (ConversationResult.Content_ (ConversationResult.Message result))
  = part :: more ->
  exists c',
    SendMessage US UC fuel c message w
    = Some (Returns (part, None), c', after_post c message w)
    /\ ParentMessageId c'
       = ConversationResult.Id (ConversationResult.Message result)
    /\ ConversationId c' = ConversationResult.ConversationId result
    /\ ChatGPT_ c' = ChatGPT_ c.
Proof.
  intros Ht He Hr Hs Hloop Hu Hparts.
  rewrite (SendMessage_cached_run fuel c message w Ht He), Hr, Hs.
  change (negb (StatusOK =? StatusOK)%Z) with false. cbv iota.
  rewrite Hloop, Hu. unfold GetMessage. rewrite Hparts.
  eexists. split; [reflexivity|]. repeat split.
  unfold rooted. cbn [set_linkage ChatGPT_].
  destruct (String.eqb (ParentMessageId c) EmptyString); reflexivity.
Qed.

(** What a returning call with a cached token leaves of the client and
    the clock. *)
Lemma SendMessage_cached_after (fuel : nat) (c : Conversation)
    (message : string) (w : World) (out : outcome (string * option error))
    (c' : Conversation) (w' : World) :
  AccessToken (ChatGPT_ c) <> EmptyString ->
  IsAccessTokenExpired (ChatGPT_ c) w = false ->
  SendMessage US UC fuel c message w = Some (out, c', w') ->
  ChatGPT_ c' = ChatGPT_ c /\ w' = after_post c message w.
Proof.
  intros Ht He H. rewrite (SendMessage_cached_run fuel c message w Ht He) in H.
  assert (Hg : ChatGPT_ (rooted c w) = ChatGPT_ c).
  { unfold rooted.
    destruct (String.eqb (ParentMessageId c) EmptyString); reflexivity. }
  destruct (remote w (sent w) (conversation_request c message w))
    as [resp|err]; [|injection H as _ <- <-; now split].
  destruct (negb (StatusCode resp =? StatusOK)%Z);
    [injection H as _ <- <-; now split|].
  destruct (read_loop fuel (Body resp) EmptyString)
    as [[err|respMessage]|]; [injection H as _ <- <-; now split | |
                              discriminate H].
  destruct (UC respMessage ConversationResult.zero) as [result [err|]];
    injection H as _ <- <-; now split.
Qed.

(** X12: two sends in a row with a token that stays cached.  When the
    first returns a reply (the first part of what the decoder made of
    the payload captured from the first answer), the second posts an
    envelope whose conversation id is the one of that decoded reply and
    whose parent message is the message of that reply (a newly drawn
    identifier when the reply named none); the two posts are the only
    requests made. *)
Theorem SendMessage_twice (fuel fuel' : nat) (c c1 c2 : Conversation)
    (message message' text : string) (w w1 w2 : World)
    (out : outcome (string * option error)) :
  AccessToken (ChatGPT_ c) <> EmptyString ->
  IsAccessTokenExpired (ChatGPT_ c) w = false ->
  SendMessage US UC fuel c message w = Some (Returns (text, None), c1, w1) ->
  SendMessage US UC fuel' c1 message' w1 = Some (out, c2, w2) ->
  exists (resp : Response) (respMessage : string)
         (result : ConversationResult.t) (body : ConversationBody.t),
    remote w (sent w) (conversation_request c message w) = inl resp
    /\ StatusCode resp = StatusOK
    /\ read_loop fuel (Body resp) EmptyString = Some (inr respMessage)
    /\ UC respMessage ConversationResult.zero = (result, None)
    /\ hd_error
         (Parts (ConversationResult.Content_
                   (ConversationResult.Message result)))
       = Some text
    /\ sent w2
       = (sent w ++ [conversation_request c message w;
                     conversation_request c1 message' w1])%list
    /\ Payload (conversation_request c1 message' w1)
       = Some (ConversationBody_JSON body)
    /\ ConversationBody.ConversationId body
       = ConversationResult.ConversationId result
    /\ ConversationBody.ParentMessageId body
       = (if String.eqb
               (ConversationResult.Id (ConversationResult.Message result))
               EmptyString
          then fresh w1 (drawn w1)
          else ConversationResult.Id (ConversationResult.Message result))
    /\ ConversationId c1 = ConversationResult.ConversationId result
    /\ ParentMessageId c1
       = ConversationResult.Id (ConversationResult.Message result).
Proof.
  intros Ht He H1 H2.
  destruct (SendMessage_cached_after _ _ _ _ _ _ _ Ht He H1) as [Hg1 Hw1].
  assert (Ht1 : AccessToken (ChatGPT_ c1) <> EmptyString) by now rewrite Hg1.
  assert (He1 : IsAccessTokenExpired (ChatGPT_ c1) w1 = false).
  { rewrite Hg1, Hw1. unfold IsAccessTokenExpired in *.
    replace (now (after_post c message w)) with (now w); [exact He|].
    unfold after_post, root_world.
    destruct (String.eqb (ParentMessageId c) EmptyString); reflexivity. }
  destruct (SendMessage_cached_after _ _ _ _ _ _ _ Ht1 He1 H2) as [_ Hw2].
  assert (Hfirst : exists resp respMessage result,
             remote w (sent w) (conversation_request c message w) = inl resp
             /\ StatusCode resp = StatusOK
             /\ read_loop fuel (Body resp) EmptyString = Some (inr respMessage)
             /\ UC respMessage ConversationResult.zero = (result, None)
             /\ hd_error
                  (Parts (ConversationResult.Content_
                            (ConversationResult.Message result)))
                = Some text
             /\ c1 = set_linkage result (rooted c w)).
  { rewrite (SendMessage_cached_run fuel c message w Ht He) in H1.
    destruct (remote w (sent w) (conversation_request c message w))
      as [resp|err] eqn:Hr; [|discriminate H1].
    destruct (Z.eqb_spec (StatusCode resp) StatusOK) as [Hs|Hs];
      cbn [negb] in H1; [|discriminate H1].
    destruct (read_loop fuel (Body resp) EmptyString)
      as [[err|respMessage]|] eqn:Hl; [discriminate H1 | | discriminate H1].
    destruct (UC respMessage ConversationResult.zero) as [result [err|]]
      eqn:Hu; [discriminate H1|].
    unfold GetMessage in H1.
    destruct (Parts (ConversationResult.Content_
                       (ConversationResult.Message result)))
      as [|part more] eqn:Hparts; [discriminate H1|].
    injection H1 as -> <- _.
    exists resp, respMessage, result. rewrite Hparts.
    repeat split; assumption || reflexivity. }
  destruct Hfirst as (resp & respMessage & result & Hr & Hs & Hl & Hu & Hd & Hc1).
  assert (Hc : ConversationId c1 = ConversationResult.ConversationId result)
    by now rewrite Hc1.
  assert (Hp : ParentMessageId c1
               = ConversationResult.Id (ConversationResult.Message result))
    by now rewrite Hc1.
  exists resp, respMessage, result,
    (outbound (rooted c1 w1) (fst (NewString (root_world c1 w1))) message').
  split; [exact Hr|]. split; [exact Hs|]. split; [exact Hl|].
  split; [exact Hu|]. split; [exact Hd|].
  split; [|split; [|split; [|split; [|split]]]].
  - rewrite Hw2. unfold after_post at 1. cbn [sent NewString snd].
    assert (Hs1 : sent (root_world c1 w1) = sent w1).
    { unfold root_world.
      destruct (String.eqb (ParentMessageId c1) EmptyString); reflexivity. }
    rewrite Hs1, Hw1. unfold after_post at 1. cbn [sent NewString snd].
    assert (Hs0 : sent (root_world c w) = sent w).
    { unfold root_world.
      destruct (String.eqb (ParentMessageId c) EmptyString); reflexivity. }
    rewrite Hs0, <- app_assoc. reflexivity.
  - reflexivity.
  - unfold outbound, rooted. rewrite <- Hc.
    destruct (String.eqb (ParentMessageId c1) EmptyString);
      cbn [ConversationId];
      destruct (ConversationId c1); reflexivity.
  - unfold outbound, rooted. rewrite <- Hp.
    destruct (String.eqb (ParentMessageId c1) EmptyString) eqn:E;
      cbn [ConversationId ParentMessageId];
      destruct (negb (String.eqb (ConversationId c1) EmptyString));
      reflexivity.
  - exact Hc.
  - exact Hp.
Qed.

(** X13: whatever way [SendMessage] returns, the credentials, the user
    agent, the timeout and the logger of the client are as before. *)
Theorem SendMessage_keeps_credentials (fuel : nat) (c : Conversation)
    (message : string) (w : World) (out : outcome (string * option error))
    (c' : Conversation) (w' : World) :
  SendMessage US UC fuel c message w = Some (out, c', w') ->
  SessionToken (ChatGPT_ c') = SessionToken (ChatGPT_ c)
  /\ ClearanceToken (ChatGPT_ c') = ClearanceToken (ChatGPT_ c)
  /\ UserAgent (ChatGPT_ c') = UserAgent (ChatGPT_ c)
  /\ Timeout (ChatGPT_ c') = Timeout (ChatGPT_ c)
  /\ Log (ChatGPT_ c') = Log (ChatGPT_ c).
Proof.
  intros H.
  assert (Hg : ChatGPT_ c'
               = snd (fst (RefreshAccessToken US (ChatGPT_ c) (root_world c w)))).
  { destruct c as [g cid pid]. unfold SendMessage, root_world in *.
    cbn [ParentMessageId ChatGPT_ ConversationId] in *.
    destruct (String.eqb pid EmptyString);
      cbn [NewString set_ParentMessageId ChatGPT_ snd fst] in *;
      cbv beta iota zeta in H; cbn [ChatGPT_] in H;
      destruct (RefreshAccessToken US g _) as [[[e|] g1] w2];
      cbn [fst snd];
      try (injection H as _ <- _; reflexivity);
      unfold NewString, Reader_, Marshal, NewRequest, Do, ReadAll in H;
      cbn [fst snd] in H;
      destruct (remote _ _ _) as [resp|err];
      try (injection H as _ <- _; reflexivity);
      destruct (negb (StatusCode resp =? StatusOK)%Z);
      try (injection H as _ <- _; reflexivity);
      destruct (read_loop fuel (Body resp) EmptyString)
        as [[err|respMessage]|];
      try discriminate H;
      try (injection H as _ <- _; reflexivity);
      destruct (UC respMessage ConversationResult.zero) as [result [err|]];
      injection H as _ <- _; reflexivity. }
  rewrite Hg.
  pose proof (refresh_credentials US (ChatGPT_ c) (root_world c w)) as Hk.
  destruct (RefreshAccessToken US (ChatGPT_ c) (root_world c w))
    as [[err g] w2].
  cbn [fst snd]. exact Hk.
Qed.


(** X15: a call of [SendMessage] that returns has made at most two
    requests, in this order and after those made before: the session
    request of the token refresh, when the cached token was not used,
    and then one POST to the conversation endpoint, which is left out
    exactly when the refresh failed. *)
Theorem SendMessage_requests (fuel : nat) (c : Conversation) (message : string)
    (w : World) (out : outcome (string * option error)) (c' : Conversation)
    (w' : World) :
  SendMessage US UC fuel c message w = Some (out, c', w') ->
  exists gets posts,
    sent w' = (sent w ++ gets ++ posts)%list
    /\ (gets = [] \/ gets = [session_request (ChatGPT_ c)])
    /\ (fst (fst (RefreshAccessToken US (ChatGPT_ c) (root_world c w))) <> None
        /\ posts = []
        \/ fst (fst (RefreshAccessToken US (ChatGPT_ c) (root_world c w))) = None
           /\ exists req,
                posts = [req]
                /\ Method req = "POST"
                /\ URL req = "https://chat.openai.com/backend-api/conversation").
Proof.
  intros H.
  assert (Hroot : sent (root_world c w) = sent w).
  { unfold root_world.
    destruct (String.eqb (ParentMessageId c) EmptyString); reflexivity. }
  pose proof (refresh_world US (ChatGPT_ c) (root_world c w)) as Hw2.
  assert (Hw : (fst (fst (RefreshAccessToken US (ChatGPT_ c) (root_world c w)))
                <> None
                /\ w' = snd (RefreshAccessToken US (ChatGPT_ c) (root_world c w)))
               \/ (fst (fst (RefreshAccessToken US (ChatGPT_ c)
                                (root_world c w))) = None
                   /\ exists req,
                        Method req = "POST"
                        /\ URL req
                           = "https://chat.openai.com/backend-api/conversation"
                        /\ sent w'
                           = (sent (snd (RefreshAccessToken US (ChatGPT_ c)
                                           (root_world c w))) ++ [req])%list)).
  { clear Hw2 Hroot. destruct c as [g cid pid].
    unfold SendMessage, root_world in *.
    cbn [ParentMessageId ChatGPT_ ConversationId] in *.
    destruct (String.eqb pid EmptyString).
    - cbn [NewString set_ParentMessageId ChatGPT_ snd fst] in *.
      cbv beta iota zeta in H; cbn [ChatGPT_] in H.
      destruct (RefreshAccessToken US g _) as [[[e|] g1] w2]; cbn [fst snd].
      { injection H as _ _ <-. left. split; [discriminate|reflexivity]. }
      right. split; [reflexivity|].
      unfold NewString, Reader_, Marshal, NewRequest, Do, ReadAll in H.
      cbn [fst snd] in H.
      eexists. split; [|split].
      3: { destruct (remote _ _ _) as [resp|err];
             [|injection H as _ _ <-; cbn [sent]; reflexivity].
           destruct (negb (StatusCode resp =? StatusOK)%Z);
             [injection H as _ _ <-; cbn [sent]; reflexivity|].
           destruct (read_loop fuel (Body resp) EmptyString)
             as [[err|respMessage]|];
             [injection H as _ _ <-; cbn [sent]; reflexivity | |
              discriminate H].
           destruct (UC respMessage ConversationResult.zero)
             as [result [err|]];
             injection H as _ _ <-; cbn [sent]; reflexivity. }
      all: reflexivity.
    - cbn [NewString set_ParentMessageId ChatGPT_ snd fst] in *.
      cbv beta iota zeta in H; cbn [ChatGPT_] in H.
      destruct (RefreshAccessToken US g _) as [[[e|] g1] w2]; cbn [fst snd].
      { injection H as _ _ <-. left. split; [discriminate|reflexivity]. }
      right. split; [reflexivity|].
      unfold NewString, Reader_, Marshal, NewRequest, Do, ReadAll in H.
      cbn [fst snd] in H.
      eexists. split; [|split].
      3: { destruct (remote _ _ _) as [resp|err];
             [|injection H as _ _ <-; cbn [sent]; reflexivity].
           destruct (negb (StatusCode resp =? StatusOK)%Z);
             [injection H as _ _ <-; cbn [sent]; reflexivity|].
           destruct (read_loop fuel (Body resp) EmptyString)
             as [[err|respMessage]|];
             [injection H as _ _ <-; cbn [sent]; reflexivity | |
              discriminate H].
           destruct (UC respMessage ConversationResult.zero)
             as [result [err|]];
             injection H as _ _ <-; cbn [sent]; reflexivity. }
      all: reflexivity.
  }
  destruct Hw as [(He & ->) | (He & req & Hm & Hu & Hs)].
  - rewrite Hw2.
    destruct (String.eqb (AccessToken (ChatGPT_ c)) EmptyString
              || IsAccessTokenExpired (ChatGPT_ c) (root_world c w)).
    + exists [session_request (ChatGPT_ c)], []. cbn [sent].
      rewrite Hroot. split; [reflexivity|]. split; [now right|].
      left. now split.
    + exists [], []. rewrite Hroot, app_nil_r. split; [reflexivity|].
      split; [now left|]. left. now split.
  - rewrite Hs, Hw2.
    destruct (String.eqb (AccessToken (ChatGPT_ c)) EmptyString
              || IsAccessTokenExpired (ChatGPT_ c) (root_world c w)).
    + exists [session_request (ChatGPT_ c)], [req]. cbn [sent].
      rewrite Hroot, <- app_assoc. split; [reflexivity|].
      split; [now right|]. right. split; [exact He|].
      exists req. repeat split; assumption.
    + exists [], [req]. rewrite Hroot. split; [reflexivity|].
      split; [now left|]. right. split; [exact He|].
      exists req. repeat split; assumption.
Qed.

End SendingProperties.

(** ** The wire form of the envelope *)

(** X14: the bytes [SendMessage] posts, which are also the bytes
    [b.JSON()] gives for the log: one object with the keys [action],
    [messages], [parent_message_id], [model] in this order, then
    [conversation_id] when the conversation has one; [messages] holds
    one message of role [user] whose only part is the text to send. *)
Theorem outbound_wire_text (c : Conversation) (id message : string) :
  ConversationBody_JSON (outbound c id message)
  = json_text "{'action':'next','messages':[{'id':" ++ JSON.quote id
    ++ json_text ",'role':'user','content':{'content_type':'text','parts':["
    ++ JSON.quote message
    ++ json_text "]}}],'parent_message_id':" ++ JSON.quote (ParentMessageId c)
    ++ json_text ",'model':'text-davinci-002-render'"
    ++ (if String.eqb (ConversationId c) EmptyString then EmptyString
        else json_text ",'conversation_id':" ++ JSON.quote (ConversationId c))
    ++ "}"
  /\ Reader_ (outbound c id message)
     = (Some (ConversationBody_JSON (outbound c id message)), None).
Proof.
  split; [|reflexivity].
  destruct c as [g cid pid]. unfold ConversationBody_JSON, Marshal, outbound.
  cbn [fst ConversationId ParentMessageId].
  destruct cid as [|a cid].
  - cbn [String.eqb negb]. unfold ConversationBody_value.
    cbn -[JSON.quote append].
    generalize (JSON.quote id), (JSON.quote message), (JSON.quote pid).
    intros qi qm qp. rewrite !append_assoc. vm_compute. reflexivity.
  - cbn [String.eqb negb]. unfold ConversationBody_value.
    cbn -[JSON.quote append].
    generalize (JSON.quote id), (JSON.quote message), (JSON.quote pid),
      (JSON.quote (String a cid)).
    intros qi qm qp qc. rewrite !append_assoc. vm_compute. reflexivity.
Qed.

(** ** The further properties at sample inputs *)

Lemma SendMessage_refresh_failure_witness :
  exists w2,
    SendMessage Decode.Unmarshal_SessionResult
      Decode.Unmarshal_ConversationResult 0
      (NewConversation signed_out EmptyString EmptyString) "hello"
      (sample_world 1000%Z (answers 403 "forbidden") (events sentinel))
    = Some (fails (Errorf "refresh access token: %w"
                     [ArgW (Errorf "response status=%d not 200"
                              [ArgD 403%Z])]),
            rooted (NewConversation signed_out EmptyString EmptyString)
              (sample_world 1000%Z (answers 403 "forbidden") (events sentinel)),
            w2)
    /\ sent w2 = [session_request signed_out]
    /\ drawn w2 = 1.
Proof.
  eexists.
  apply (SendMessage_refresh_failure Decode.Unmarshal_SessionResult
           Decode.Unmarshal_ConversationResult 0
           (NewConversation signed_out EmptyString EmptyString) "hello"
           (sample_world 1000%Z (answers 403 "forbidden") (events sentinel))
           (Errorf "response status=%d not 200" [ArgD 403%Z]) signed_out).
  reflexivity.
Defined.

Lemma SendMessage_posts_once_witness :
  match
    SendMessage Decode.Unmarshal_SessionResult
      Decode.Unmarshal_ConversationResult 1
      (NewConversation signed_in EmptyString EmptyString) "hello"
      (sample_world 1000%Z unreachable (events sentinel))
  with
  | Some (_, _, w') =>
      exists req,
        sent w' = [req]
        /\ Method req = "POST"
        /\ Payload req
           = Some (json_text
                     "{'action':'next','messages':[{'id':'6fa459ea-ee8a-4ca4-894e-000000000001','role':'user','content':{'content_type':'text','parts':['hello']}}],'parent_message_id':'6fa459ea-ee8a-4ca4-894e-000000000000','model':'text-davinci-002-render'}")
        /\ drawn w' = 2
  | None => False
  end.
Proof.
  destruct (SendMessage Decode.Unmarshal_SessionResult
              Decode.Unmarshal_ConversationResult 1
              (NewConversation signed_in EmptyString EmptyString) "hello"
              (sample_world 1000%Z unreachable (events sentinel)))
    as [[[out c'] w']|] eqn:E; [|vm_compute in E; discriminate E].
  destruct (SendMessage_posts_once Decode.Unmarshal_SessionResult
              Decode.Unmarshal_ConversationResult 1
              (NewConversation signed_in EmptyString EmptyString) "hello"
              (sample_world 1000%Z unreachable (events sentinel)) out c' w')
    as (req & Hs & Hm & _ & _ & Hp & _ & Hd).
  - discriminate.
  - reflexivity.
  - exact E.
  - exists req. repeat split; assumption.
Defined.

Lemma SendMessage_status_not_OK_witness :
  SendMessage Decode.Unmarshal_SessionResult
    Decode.Unmarshal_ConversationResult 0
    (NewConversation signed_in "c0" "m1") "hello"
    (sample_world 1000%Z unreachable (answers 429 "slow down"))
  = Some (fails (Errorf "response status code=%d, body=%s"
                   [ArgD 429%Z; ArgS "slow down"]),
          rooted (NewConversation signed_in "c0" "m1")
            (sample_world 1000%Z unreachable (answers 429 "slow down")),
          after_post (NewConversation signed_in "c0" "m1") "hello"
            (sample_world 1000%Z unreachable (answers 429 "slow down")))
  /\ ConversationId
       (rooted (NewConversation signed_in "c0" "m1")
          (sample_world 1000%Z unreachable (answers 429 "slow down")))
     = "c0".
Proof.
  apply (SendMessage_status_not_OK Decode.Unmarshal_SessionResult
           Decode.Unmarshal_ConversationResult 0
           (NewConversation signed_in "c0" "m1") "hello"
           (sample_world 1000%Z unreachable (answers 429 "slow down"))
           (mkResponse 429%Z (mkReader "slow down" io_EOF))).
  - discriminate.
  - reflexivity.
  - reflexivity.
  - discriminate.
Defined.

Lemma SendMessage_returns_first_part_witness :
  exists c',
    SendMessage Decode.Unmarshal_SessionResult
      Decode.Unmarshal_ConversationResult 2
      (NewConversation signed_in "c1" "m2") "Hi"
      (sample_world 1000%Z unreachable
         (events (stream [Data error_payload] sentinel)))
    = Some (Returns ("partial", None), c',
            after_post (NewConversation signed_in "c1" "m2") "Hi"
              (sample_world 1000%Z unreachable
                 (events (stream [Data error_payload] sentinel))))
    /\ ParentMessageId c' = "m4"
    /\ ConversationId c' = "c1"
    /\ ChatGPT_ c' = signed_in.
Proof.
  apply (SendMessage_returns_first_part Decode.Unmarshal_SessionResult
           Decode.Unmarshal_ConversationResult 2
           (NewConversation signed_in "c1" "m2") "Hi"
           (sample_world 1000%Z unreachable
              (events (stream [Data error_payload] sentinel)))
           (mkResponse StatusOK
              (mkReader (stream [Data error_payload] sentinel) io_EOF))
           error_payload
           (fst (Decode.Unmarshal_ConversationResult error_payload
                   ConversationResult.zero))
           "partial" ["more"]).
  - discriminate.
  - reflexivity.
  - reflexivity.
  - reflexivity.
  - vm_compute. reflexivity.
  - vm_compute. reflexivity.
  - vm_compute. reflexivity.
Defined.

Lemma SendMessage_twice_witness :
  exists body,
    Payload
      (conversation_request (mkConversation signed_in "c1" "m2") "again"
         (after_post (NewConversation signed_in EmptyString EmptyString) "Hi"
            (sample_world 1000%Z unreachable
               (events (stream [Data hello_payload] sentinel)))))
    = Some (ConversationBody_JSON body)
    /\ ConversationBody.ConversationId body = "c1"
    /\ ConversationBody.ParentMessageId body = "m2".
Proof.
  destruct (SendMessage_twice Decode.Unmarshal_SessionResult
              Decode.Unmarshal_ConversationResult 2 2
              (NewConversation signed_in EmptyString EmptyString)
              (mkConversation signed_in "c1" "m2")
              (mkConversation signed_in "c1" "m2")
              "Hi" "again" "Hello!"
              (sample_world 1000%Z unreachable
                 (events (stream [Data hello_payload] sentinel)))
              (after_post (NewConversation signed_in EmptyString EmptyString)
                 "Hi"
                 (sample_world 1000%Z unreachable
                    (events (stream [Data hello_payload] sentinel))))
              (after_post (mkConversation signed_in "c1" "m2") "again"
                 (after_post
                    (NewConversation signed_in EmptyString EmptyString) "Hi"
                    (sample_world 1000%Z unreachable
                       (events (stream [Data hello_payload] sentinel)))))
              (Returns ("Hello!", None)))
    as (resp & respMessage & result & body & _ & _ & _ & _ & _ & _ & Hp & Hc
        & Hpm & Hc1 & Hp1).
  - discriminate.
  - reflexivity.
  - vm_compute. reflexivity.
  - vm_compute. reflexivity.
  - exists body. split; [exact Hp|].
    rewrite Hc, <- Hc1. split; [reflexivity|].
    rewrite Hpm, <- Hp1. reflexivity.
Defined.

Lemma SendMessage_keeps_credentials_witness :
  match
    SendMessage Decode.Unmarshal_SessionResult
      Decode.Unmarshal_ConversationResult 2
      (NewConversation signed_out EmptyString EmptyString) "Hi"
      (sample_world 1000%Z (answers 200 session_payload)
         (events (stream [Data hello_payload] sentinel)))
  with
  | Some (_, c', _) =>
      SessionToken (ChatGPT_ c') = "session"
      /\ ClearanceToken (ChatGPT_ c') = "clearance"
      /\ UserAgent (ChatGPT_ c') = "agent"
      /\ Timeout (ChatGPT_ c') = 10000000000%Z
      /\ Log (ChatGPT_ c') = None
  | None => False
  end.
Proof.
  destruct (SendMessage Decode.Unmarshal_SessionResult
              Decode.Unmarshal_ConversationResult 2
              (NewConversation signed_out EmptyString EmptyString) "Hi"
              (sample_world 1000%Z (answers 200 session_payload)
                 (events (stream [Data hello_payload] sentinel))))
    as [[[out c'] w']|] eqn:E; [|vm_compute in E; discriminate E].
  exact (SendMessage_keeps_credentials Decode.Unmarshal_SessionResult
           Decode.Unmarshal_ConversationResult _ _ _ _ _ _ _ E).
Defined.

Lemma SendMessage_requests_witness :
  match
    SendMessage Decode.Unmarshal_SessionResult
      Decode.Unmarshal_ConversationResult 2
      (NewConversation signed_out "c0" "m1") "Hi"
      (sample_world 1000%Z (answers 200 session_payload)
         (events (stream [Data hello_payload] sentinel)))
  with
  | Some (_, _, w') =>
      exists gets posts,
        sent w' = (gets ++ posts)%list
        /\ List.length gets <= 1
        /\ List.length posts <= 1
  | None => False
  end.
Proof.
  destruct (SendMessage Decode.Unmarshal_SessionResult
              Decode.Unmarshal_ConversationResult 2
              (NewConversation signed_out "c0" "m1") "Hi"
              (sample_world 1000%Z (answers 200 session_payload)
                 (events (stream [Data hello_payload] sentinel))))
    as [[[out c'] w']|] eqn:E; [|vm_compute in E; discriminate E].
  destruct (SendMessage_requests Decode.Unmarshal_SessionResult
              Decode.Unmarshal_ConversationResult _ _ _ _ _ _ _ E)
    as (gets & posts & Hs & Hg & Hp).
  exists gets, posts. split; [exact Hs|].
  split.
  - destruct Hg as [-> | ->]; cbn [List.length]; [apply le_S|]; apply le_n.
  - destruct Hp as [(_ & ->) | (_ & req & -> & _)]; cbn [List.length];
      [apply le_S|]; apply le_n.
Defined.

(** ** The stream parser, whatever the field names *)







